(** * Swimming results browser: time parsing, formatting and aggregates

    A shallow embedding of [swimming_results_app.py].

    - Text is [string]; the [str] methods the program calls ([strip],
      [upper], [lower], [split]) are given on ASCII text, where a character
      outside the ASCII letters has no case and the white space of [str] is
      9-13 and 28-32.
    - A Python [float] is a binary64 number: [spec_float] with precision 53
      and maximal exponent 1024, every operation rounding to nearest, ties to
      even.  The null of the program ([np.nan], [NaN], [NaT], [None]) is
      [S754_nan] for a number and [None] for a cell of a table.
    - A Python [int] is a [Z].
    - An exception is a value of [exn]; [try ... except Exception] is a match
      on [result]. *)

From Stdlib Require Import ZArith List String Ascii Bool Lia Permutation Sorted.
From Stdlib Require Import SpecFloat.
Import ListNotations.

Open Scope string_scope.
Open Scope Z_scope.

(* ------------------------------------------------------------------ *)
(** ** Exceptions *)

Inductive exn : Type := ValueError | OverflowError | TypeError.

Inductive result (A : Type) : Type :=
| Ok (a : A)
| Raise (e : exn).

Arguments Ok {A} a.
Arguments Raise {A} e.

Definition bind {A B : Type} (r : result A) (k : A -> result B) : result B :=
  match r with
  | Ok a => k a
  | Raise e => Raise e
  end.

Notation "x <- r ;; k" := (bind r (fun x => k))
  (at level 61, r at next level, right associativity).

(* ------------------------------------------------------------------ *)
(** ** Python [str] on ASCII text *)

Module PyStr.

Definition code (c : ascii) : N := N_of_ascii c.

Definition between (lo hi : N) (c : ascii) : bool :=
  (N.leb lo (code c) && N.leb (code c) hi)%bool.

(** [str.isspace] on one ASCII character. *)
Definition isspace (c : ascii) : bool :=
  (between 9 13 c || between 28 32 c)%bool.

(** The white space of the C level ([Py_ISSPACE]) that [int] and [float]
    skip at both ends of an ASCII string. *)
Definition c_isspace (c : ascii) : bool :=
  (between 9 13 c || N.eqb (code c) 32)%bool.

Definition isdigit (c : ascii) : bool := between 48 57 c.

Definition upper_char (c : ascii) : ascii :=
  if between 97 122 c then ascii_of_N (code c - 32) else c.

Definition lower_char (c : ascii) : ascii :=
  if between 65 90 c then ascii_of_N (code c + 32) else c.

Fixpoint map (f : ascii -> ascii) (s : string) : string :=
  match s with
  | EmptyString => EmptyString
  | String c r => String (f c) (map f r)
  end.

Definition upper : string -> string := map upper_char.
Definition lower : string -> string := map lower_char.

Fixpoint lstrip_by (p : ascii -> bool) (s : string) : string :=
  match s with
  | EmptyString => EmptyString
  | String c r => if p c then lstrip_by p r else s
  end.

Fixpoint rstrip_by (p : ascii -> bool) (s : string) : string :=
  match s with
  | EmptyString => EmptyString
  | String c r =>
      match rstrip_by p r with
      | EmptyString => if p c then EmptyString else String c EmptyString
      | r' => String c r'
      end
  end.

Definition strip_by (p : ascii -> bool) (s : string) : string :=
  rstrip_by p (lstrip_by p s).

(** [s.strip()] *)
Definition strip : string -> string := strip_by isspace.

(** [c in s] for a one-character [c]. *)
Fixpoint contains (c : ascii) (s : string) : bool :=
  match s with
  | EmptyString => false
  | String d r => if Ascii.eqb c d then true else contains c r
  end.

(** [s.split(c, 1)] when [c] is in [s]: the text before the first [c] and
    the text after it. *)
Fixpoint split1 (c : ascii) (s : string) : string * string :=
  match s with
  | EmptyString => (EmptyString, EmptyString)
  | String d r =>
      if Ascii.eqb c d then (EmptyString, r)
      else let '(a, b) := split1 c r in (String d a, b)
  end.

(** [s.split()]: the maximal runs of characters that are not white space. *)
Fixpoint split (s : string) : list string :=
  match s with
  | EmptyString => []
  | String c r =>
      if isspace c then split r
      else
        match r with
        | EmptyString => [String c EmptyString]
        | String c' _ =>
            if isspace c' then String c EmptyString :: split r
            else
              match split r with
              | t :: ts => String c t :: ts
              | [] => [String c EmptyString]
              end
        end
  end.

(** [sep.join(l)] *)
Fixpoint join (sep : string) (l : list string) : string :=
  match l with
  | [] => EmptyString
  | [t] => t
  | t :: ts => t ++ sep ++ join sep ts
  end.

(** [sorted(l)] on strings: the order of [str] is the lexicographic order
    of the character codes. *)
Fixpoint insert (t : string) (l : list string) : list string :=
  match l with
  | [] => [t]
  | u :: us => if String.leb t u then t :: l else u :: insert t us
  end.

Fixpoint sorted (l : list string) : list string :=
  match l with
  | [] => []
  | t :: ts => insert t (sorted ts)
  end.

Fixpoint mem (s : string) (l : list string) : bool :=
  match l with
  | [] => false
  | t :: ts => if String.eqb s t then true else mem s ts
  end.

End PyStr.

(* ------------------------------------------------------------------ *)
(** ** Python [float]: binary64 *)

Module PyFloat.

Definition float : Type := spec_float.

Definition prec : Z := 53.
Definition emax : Z := 1024.

Definition nan : float := S754_nan.

Definition is_nan (x : float) : bool :=
  match x with
  | S754_nan => true
  | _ => false
  end.

Definition add : float -> float -> float := SFadd prec emax.
Definition sub : float -> float -> float := SFsub prec emax.
Definition div : float -> float -> float := SFdiv prec emax.
Definition ltb : float -> float -> bool := SFltb.
Definition leb : float -> float -> bool := SFleb.

(** The float nearest to the integer [z]; [binary_normalize] gives an
    infinity when [z] is out of range. *)
Definition of_Z (z : Z) : float := binary_normalize prec emax z 0 false.

(** An [int] operand of a float operation ([PyLong_AsDouble]): the nearest
    float, or [OverflowError] when that is out of range. *)
Definition of_int (z : Z) : result float :=
  match of_Z z with
  | S754_infinity _ => Raise OverflowError
  | x => Ok x
  end.

(** The float nearest to [(-1)^neg * d * 10^k], as the correctly rounded
    [strtod] of CPython gives it; out of range is an infinity. *)
Definition of_decimal (neg : bool) (d : Z) (k : Z) : float :=
  match d with
  | Zpos p =>
      match k with
      | Zneg k' =>
          let '(q, e, l) :=
            SFdiv_core_binary prec emax (Zpos p) 0 (Z.pow_pos 10 k') 0 in
          binary_round_aux prec emax neg q e l
      | _ => binary_normalize prec emax (cond_Zopp neg (Zpos p * 10 ^ k)) 0 neg
      end
  | _ => S754_zero neg
  end.

End PyFloat.

Import PyFloat.

(* ------------------------------------------------------------------ *)
(** ** [int(s)] and [float(s)] on text *)

Module PyNum.

Import PyStr.

Definition digit_val (c : ascii) : Z := Z.of_N (code c) - 48.

(** The value of a string of digits, most significant first. *)
Fixpoint digits_val (acc : Z) (s : string) : Z :=
  match s with
  | EmptyString => acc
  | String c r => digits_val (10 * acc + digit_val c) r
  end.

Fixpoint all_digits (s : string) : bool :=
  match s with
  | EmptyString => true
  | String c r => (isdigit c && all_digits r)%bool
  end.

(** The longest prefix of digits, and the rest. *)
Fixpoint span_digits (s : string) : string * string :=
  match s with
  | EmptyString => (EmptyString, EmptyString)
  | String c r =>
      if isdigit c then let '(a, b) := span_digits r in (String c a, b)
      else (EmptyString, s)
  end.

(** Digit grouping: an underscore is read only between two digits, and is
    dropped; [prev] is the character before. *)
Fixpoint drop_underscores (prev : option ascii) (s : string) : option string :=
  match s with
  | EmptyString =>
      match prev with
      | Some "_"%char => None
      | _ => Some EmptyString
      end
  | String c r =>
      if Ascii.eqb c "_" then
        match prev with
        | Some p => if isdigit p then drop_underscores (Some c) r else None
        | None => None
        end
      else
        match prev with
        | Some "_"%char =>
            if isdigit c then option_map (String c) (drop_underscores (Some c) r)
            else None
        | _ => option_map (String c) (drop_underscores (Some c) r)
        end
  end.

(** An optional sign; [true] is minus. *)
Definition sign (s : string) : bool * string :=
  match s with
  | String "-" r => (true, r)
  | String "+" r => (false, r)
  | _ => (false, s)
  end.

(** [int(s)], base ten. *)
Definition py_int (s : string) : result Z :=
  let '(neg, r) := sign (strip_by c_isspace s) in
  match drop_underscores None r with
  | Some ds =>
      match ds with
      | EmptyString => Raise ValueError
      | _ =>
          if all_digits ds then Ok (cond_Zopp neg (digits_val 0 ds))
          else Raise ValueError
      end
  | None => Raise ValueError
  end.

(** The exponent part of a decimal literal: nothing, or [e] or [E], an
    optional sign and at least one digit, up to the end of the text. *)
Definition exponent (s : string) : option Z :=
  match s with
  | EmptyString => Some 0
  | String c r =>
      if (Ascii.eqb c "e" || Ascii.eqb c "E")%bool then
        let '(neg, ds) := sign r in
        match ds with
        | EmptyString => None
        | _ => if all_digits ds then Some (cond_Zopp neg (digits_val 0 ds)) else None
        end
      else None
  end.

(** A decimal literal without its sign: digits, an optional point and
    digits, at least one digit in all, an optional exponent.  The result is
    the integer [d] and the power of ten [k] of [d * 10^k]. *)
Definition decimal (s : string) : option (Z * Z) :=
  let '(ip, r1) := span_digits s in
  let '(fp, r2) :=
    match r1 with
    | String "." r => span_digits r
    | _ => (EmptyString, r1)
    end in
  match ip ++ fp with
  | EmptyString => None
  | ds =>
      match exponent r2 with
      | Some e => Some (digits_val 0 ds, e - Z.of_nat (String.length fp))
      | None => None
      end
  end.

(** [float(s)] *)
Definition py_float (s : string) : result float :=
  match drop_underscores None (strip_by c_isspace s) with
  | None => Raise ValueError
  | Some t =>
      let '(neg, r) := sign t in
      let w := lower r in
      if (String.eqb w "inf" || String.eqb w "infinity")%bool then Ok (S754_infinity neg)
      else if String.eqb w "nan" then Ok S754_nan
      else
        match decimal r with
        | Some (d, k) => Ok (of_decimal neg d k)
        | None => Raise ValueError
        end
  end.

End PyNum.

Import PyNum.

(* ------------------------------------------------------------------ *)
(** ** Time parser *)

(** [DQ_LIKE] *)
Definition DQ_LIKE : list string :=
  ["DQ"; "DSQ"; "DNF"; "DNS"; "NS"; "SCR"; "NT"; ""].

(** A cell of a table read with [dtype=str]: a text, or nothing. *)
Definition cell : Type := option string.

(** The body of the [try] of [parse_time_to_seconds]. *)
Definition parse_time_body (s : string) : result float :=
  if PyStr.contains ":" s then
    let '(mm, ss) := PyStr.split1 ":" s in
    m <- py_int mm ;;
    x <- py_float ss ;;
    i <- of_int (m * 60) ;;
    Ok (add i x)
  else py_float s.

Definition parse_time_to_seconds (x : cell) : float :=
  match x with
  | None => nan
  | Some t =>
      let s := PyStr.upper (PyStr.strip t) in
      if PyStr.mem s DQ_LIKE then nan
      else
        match parse_time_body s with
        | Ok v => v
        | Raise _ => nan
        end
  end.

(* ------------------------------------------------------------------ *)
(** ** Float operations of the formatter *)

Module PyFmt.

Import PyStr.

Definition is_zero (x : float) : bool :=
  match x with
  | S754_zero _ => true
  | _ => false
  end.

Definition is_finite (x : float) : bool :=
  match x with
  | S754_zero _ | S754_finite _ _ _ => true
  | _ => false
  end.

Definition sign_of (x : float) : bool :=
  match x with
  | S754_zero s | S754_infinity s | S754_finite s _ _ => s
  | S754_nan => false
  end.

(** C [fmod]: exact, with the sign of [x]. *)
Definition fmod (x y : float) : float :=
  match x, y with
  | S754_nan, _ | _, S754_nan => nan
  | S754_infinity _, _ | _, S754_zero _ => nan
  | _, S754_infinity _ => x
  | S754_zero _, _ => x
  | S754_finite sx mx ex, S754_finite _ my ey =>
      let e := Z.min ex ey in
      let a := Zpos mx * 2 ^ (ex - e) in
      let b := Zpos my * 2 ^ (ey - e) in
      binary_normalize prec emax (cond_Zopp sx (a mod b)) e sx
  end.

(** C [floor] *)
Definition floor (x : float) : float :=
  match x with
  | S754_finite s m (Zneg p) =>
      binary_normalize prec emax (cond_Zopp s (Zpos m) / 2 ^ Zpos p) 0 s
  | _ => x
  end.

Definition one : float := of_Z 1.
Definition half : float := S754_finite false 4503599627370496 (-53).

(** [vx // wx] on floats, for [wx] not zero: the quotient part of
    [_float_div_mod] of CPython. *)
Definition floordiv (vx wx : float) : float :=
  let md := fmod vx wx in
  let dv := div (sub vx md) wx in
  let dv :=
    if is_zero md then dv
    else if xorb (ltb wx (S754_zero false)) (ltb md (S754_zero false))
         then sub dv one else dv in
  if is_zero dv then S754_zero (sign_of (div vx wx))
  else
    let fl := floor dv in
    if ltb half (sub dv fl) then add fl one else fl.

(** [int(x)] on a float: truncation. *)
Definition to_int (x : float) : result Z :=
  match x with
  | S754_nan => Raise ValueError
  | S754_infinity _ => Raise OverflowError
  | S754_zero _ => Ok 0
  | S754_finite s m e =>
      Ok (cond_Zopp s (match e with
                       | Zneg p => Zpos m / 2 ^ Zpos p
                       | _ => Zpos m * 2 ^ e
                       end))
  end.

(** *** Decimal text *)

Definition digit_char (d : Z) : ascii := ascii_of_N (Z.to_N (48 + d)).

Fixpoint digits_fuel (fuel : nat) (n : Z) (acc : string) : string :=
  match fuel with
  | O => acc
  | S f =>
      let acc' := String (digit_char (n mod 10)) acc in
      if (n <? 10)%Z then acc' else digits_fuel f (n / 10) acc'
  end.

(** The decimal digits of [n >= 0]. *)
Definition str_of_nonneg (n : Z) : string :=
  digits_fuel (S (Z.to_nat (Z.log2 n))) n EmptyString.

(** [str(z)] on an [int]. *)
Definition str_of_Z (z : Z) : string :=
  if (z <? 0)%Z then String "-" (str_of_nonneg (- z)) else str_of_nonneg z.

(** [num / den] rounded to the nearest integer, ties to even
    ([0 <= num], [0 < den]). *)
Definition round_half_even (num den : Z) : Z :=
  let q := num / den in
  match Z.compare (2 * (num mod den)) den with
  | Lt => q
  | Gt => q + 1
  | Eq => if Z.even q then q else q + 1
  end.

(** [m * 2^e] in hundredths, rounded to nearest, ties to even. *)
Definition hundredths (m : positive) (e : Z) : Z :=
  match e with
  | Zneg p => round_half_even (Zpos m * 100) (2 ^ Zpos p)
  | _ => Zpos m * 100 * 2 ^ e
  end.

(** [n] hundredths as digits, a point and two digits. *)
Definition fixed2 (n : Z) : string :=
  str_of_nonneg (n / 100) ++
  String "." (String (digit_char (n mod 100 / 10))
             (String (digit_char (n mod 10)) EmptyString)).

(** The text of [x] for [.2f], without its sign. *)
Definition body_2f (x : float) : string :=
  match x with
  | S754_nan => "nan"
  | S754_infinity _ => "inf"
  | S754_zero _ => "0.00"
  | S754_finite _ m e => fixed2 (hundredths m e)
  end.

Definition sign_text (x : float) : string :=
  if sign_of x then "-" else "".

(** [f"{x:.2f}"] *)
Definition format_2f (x : float) : string := sign_text x ++ body_2f x.

Fixpoint zeros (n : nat) : string :=
  match n with
  | O => EmptyString
  | S k => String "0" (zeros k)
  end.

(** [f"{x:05.2f}"]: zeros between the sign and the digits up to five
    characters. *)
Definition format_05_2f (x : float) : string :=
  let sg := sign_text x in
  let b := body_2f x in
  sg ++ zeros (5 - (String.length sg + String.length b)) ++ b.

End PyFmt.

Import PyFmt.

(* ------------------------------------------------------------------ *)
(** ** Time formatter *)

(** What [format_time] is applied to: a missing value ([None], [NaN]), a
    text, or a number of seconds. *)
Inductive pyval : Type :=
| VNone
| VStr (s : string)
| VFloat (x : float).

(** [pd.isna(x)] *)
Definition isna (x : pyval) : bool :=
  match x with
  | VNone => true
  | VStr _ => false
  | VFloat v => is_nan v
  end.

Section Formatter.

(** [str] on a float, the shortest text that [float] reads back; it is a
    builtin of Python and stays a parameter. *)
Variable float_str : float -> string.

(** [str(x)] *)
Definition py_str (x : pyval) : string :=
  match x with
  | VNone => "None"
  | VStr s => s
  | VFloat v => float_str v
  end.

(** The body of the [try] of [format_time]. *)
Definition format_seconds (s : string) : result string :=
  sec <- py_float s ;;
  if leb (of_Z 60) sec then
    m <- to_int (floordiv sec (of_Z 60)) ;;
    i <- of_int (m * 60) ;;
    let rem := sub sec i in
    Ok (str_of_Z m ++ ":" ++ format_05_2f rem)
  else Ok (format_2f sec).

Definition format_time (x : pyval) : string :=
  if isna x then "N/A"
  else
    let s := PyStr.strip (py_str x) in
    let u := PyStr.upper s in
    if (PyStr.mem u DQ_LIKE || String.eqb u "N/A")%bool then s
    else if PyStr.contains ":" s then s
    else
      match format_seconds s with
      | Ok r => r
      | Raise _ => s
      end.

End Formatter.

(* ------------------------------------------------------------------ *)
(** ** Vocabulary of the time parser's specification *)

Module ParseSpec.

Import PyStr.

(** The text the parser decides on: trimmed, then upper-cased. *)
Definition normal (t : string) : string := upper (strip t).

(** The text is one of the non-finishing markers. *)
Definition is_marker (t : string) : bool := mem (normal t) DQ_LIKE.

Definition raises {A : Type} (r : result A) : bool :=
  match r with
  | Raise _ => true
  | Ok _ => false
  end.

(** The text that is read as seconds: what follows the first colon, or the
    whole text when there is none. *)
Definition seconds_part (s : string) : string :=
  if contains ":" s then snd (split1 ":" s) else s.

(** Numeric parsing fails: with a colon, [int] refuses what is before it or
    [float] what is after it; without, [float] refuses the text. *)
Definition parse_fails (s : string) : bool :=
  if contains ":" s then
    (raises (py_int (fst (split1 ":" s))) || raises (py_float (snd (split1 ":" s))))%bool
  else raises (py_float s).

(** The minutes are read, and sixty times them is out of the range of a
    float. *)
Definition minutes_overflow (s : string) : bool :=
  (contains ":" s &&
   match py_int (fst (split1 ":" s)) with
   | Ok m => raises (of_int (m * 60))
   | Raise _ => false
   end)%bool.

(** [float] reads the text as NaN: it is [nan], in any case, with an
    optional sign, white space around it. *)
Definition nan_text (r : string) : bool :=
  match drop_underscores None (strip_by c_isspace r) with
  | Some t => String.eqb (lower (snd (sign t))) "nan"
  | None => false
  end.

(** A one followed by 310 zeros as the minutes, and no seconds. *)
Definition huge_minutes : string := "1" ++ PyFmt.zeros 310 ++ ":0".

End ParseSpec.

Import ParseSpec.


(* ------------------------------------------------------------------ *)
(** ** Vocabulary of the time formatter's specification *)

Module FormatSpec.

Import PyStr.

(** [s] is digits, at least [n] of them, a point, and two digits. *)
Definition fixed_text (n : nat) (s : string) : Prop :=
  exists (ip : string) (d1 d2 : ascii),
    s = ip ++ String "." (String d1 (String d2 EmptyString)) /\
    all_digits ip = true /\
    (n <= String.length ip)%nat /\
    isdigit d1 = true /\ isdigit d2 = true.

(** [str] on floats gives [62.34] for every float: enough to follow one
    number through the formatter. *)
Definition str_62_34 (_ : float) : string := "62.34".

(** 62.34 *)
Definition f62_34 : float := S754_finite false 8773575024071148 (-47).

End FormatSpec.

Import FormatSpec.

(* ------------------------------------------------------------------ *)
(** ** The table of results *)

(** A row of the concatenated files, every column read as text
    ([dtype=str]); an absent value is [None].  [Event_Type] comes from the
    file name. *)
Module Raw.

Record row : Type := {
  Meet_Name : cell;
  Meet_Date : cell;
  Name : cell;
  Age : cell;
  No_of_Participants : cell;
  Rank : cell; Time : cell;
  Team : cell;
  Notes : cell;
  DQ : cell;
  DQ_Reason : cell;
  Event_Type : string
}.

End Raw.

(** A moment, in nanoseconds since the epoch ([Timestamp]); [None] is
    [NaT]. *)
Definition timestamp : Type := option Z.

(** A row of the working set. *)
Record row : Type := {
  Meet_Name : cell;
  Meet_Date : timestamp;
  Name : string;
  Age : cell;
  No_of_Participants : cell;
  Rank : cell; Time : cell;
  Team : cell;
  Notes : cell;
  DQ : cell;
  DQ_Reason : cell;
  Event_Type : string;
  Time_s : float
}.

Definition row_eq_dec (a b : row) : {a = b} + {a <> b}.
Proof.
  repeat decide equality; apply String.string_dec.
Defined.

Module Frame.

(** [Series.astype(str)] on a column of text and missing values: a missing
    value becomes the text [nan]. *)
Definition astype_str (c : cell) : string :=
  match c with
  | Some s => s
  | None => "nan"
  end.

(** [df.drop_duplicates()]: the first of the rows that are equal in every
    column is kept. *)
Fixpoint drop_duplicates (df : list row) : list row :=
  match df with
  | [] => []
  | r :: rs =>
      r :: filter (fun x => if row_eq_dec r x then false else true)
             (drop_duplicates rs)
  end.

(** [pd.unique] on texts: first occurrences, in order. *)
Fixpoint unique (l : list string) : list string :=
  match l with
  | [] => []
  | s :: ss => s :: filter (fun x => negb (String.eqb s x)) (unique ss)
  end.

Section Load.

(** [pd.to_datetime(..., errors="coerce")] on one cell: the moment the
    text denotes, [NaT] for a missing or unreadable one.  It is a function
    of pandas and stays a parameter. *)
Variable to_datetime : cell -> timestamp.

(** The per-row part of the cleaning of [load_all_swimming_data]: the
    name as trimmed text, the date as a moment, the time in seconds. *)
Definition clean (r : Raw.row) : row :=
  {| Meet_Name := Raw.Meet_Name r;
     Meet_Date := to_datetime (Raw.Meet_Date r);
     Name := PyStr.strip (astype_str (Raw.Name r));
     Age := Raw.Age r;
     No_of_Participants := Raw.No_of_Participants r;
     Rank := Raw.Rank r;
     Time := Raw.Time r;
     Team := Raw.Team r;
     Notes := Raw.Notes r;
     DQ := Raw.DQ r;
     DQ_Reason := Raw.DQ_Reason r;
     Event_Type := Raw.Event_Type r;
     Time_s := parse_time_to_seconds (Raw.Time r) |}.

(** [load_all_swimming_data], from the concatenated frame on: rows with
    an empty name are dropped, then duplicates. *)
Definition load (combined : list Raw.row) : list row :=
  drop_duplicates
    (filter (fun r => (0 <? String.length (Name r))%nat) (map clean combined)).

End Load.

(** [get_available_swimmers] *)
Definition get_available_swimmers (df : list row) : list string :=
  PyStr.sorted
    (unique (filter (fun n => negb (String.eqb (PyStr.strip n) ""))
               (map Name df))).

End Frame.

(* ------------------------------------------------------------------ *)
(** ** Filters and aggregates of [main] *)

Module Query.

(** The text both names are reduced to before they are compared. *)
Definition name_key (s : string) : string :=
  PyStr.join " " (PyStr.sorted (PyStr.split (PyStr.lower s))).

(** The swimmer filter. *)
Definition by_swimmer (swimmer_name : string) (df : list row) : list row :=
  if String.eqb swimmer_name "All Swimmers" then df
  else
    let search_normalized := name_key swimmer_name in
    filter (fun r => String.eqb (name_key (Name r)) search_normalized) df.

Definition by_event (event_type : string) (df : list row) : list row :=
  if String.eqb event_type "All Events" then df
  else filter (fun r => String.eqb (Event_Type r) event_type) df.

Definition by_team (selected_team : string) (df : list row) : list row :=
  if String.eqb selected_team "All Teams" then df
  else
    filter (fun r => match Team r with
                     | Some t => String.eqb t selected_team
                     | None => false
                     end) df.

(** [pd.to_datetime] on a chosen day (days since the epoch): its
    midnight. *)
Definition midnight (day : Z) : Z := day * 86400000000000.

(** [Meet_Date.isna().all()] *)
Definition all_dates_null (df : list row) : bool :=
  forallb (fun r => match Meet_Date r with
                    | None => true
                    | Some _ => false
                    end) df.

(** The date filter runs when two days are chosen and some row has a
    date. *)
Definition date_filter_active (date_range : option (list Z)) (df : list row) : bool :=
  match date_range with
  | Some [_; _] => negb (all_dates_null df)
  | _ => false
  end.

Definition in_range (start_date end_date : Z) (r : row) : bool :=
  match Meet_Date r with
  | Some d => ((start_date <=? d) && (d <=? end_date))%bool
  | None => false
  end.

(** The date filter; [date_range] is what the date input returns: nothing,
    or a tuple of days. *)
Definition by_date (date_range : option (list Z)) (df : list row) : list row :=
  match date_range with
  | Some [d0; d1] =>
      if all_dates_null df then df
      else filter (in_range (midnight d0) (midnight d1)) df
  | _ => df
  end.

(** [Time_s.notna()] *)
Definition has_time (r : row) : bool := negb (is_nan (Time_s r)).

(** The smaller of two floats, the first on a tie: one step of [min] and
    [idxmin]. *)
Definition first_min {A : Type} (key : A -> float) (best x : A) : A :=
  if ltb (key x) (key best) then x else best.

Definition first_max {A : Type} (key : A -> float) (best x : A) : A :=
  if ltb (key best) (key x) then x else best.

(** Best performance: the report that all results are without a time, or
    the row [valid.loc[valid["Time_s"].idxmin()]]. *)
Inductive best : Type :=
| AllNoTime
| BestRow (best_row : row).

Definition best_performance (chart_data : list row) : best :=
  match filter has_time chart_data with
  | [] => AllNoTime
  | r :: rs => BestRow (fold_left (first_min Time_s) rs r)
  end.

(** [Series.min()] and [Series.max()] on a series without NaN that is not
    empty. *)
Definition series_min (x : float) (xs : list float) : float :=
  fold_left (first_min (fun v => v)) xs x.

Definition series_max (x : float) (xs : list float) : float :=
  fold_left (first_max (fun v => v)) xs x.

(** What the statistics panel shows. *)
Inductive statistics : Type :=
| Full (time_min time_max improvement avg : float) (total_events : nat)
| CountOnly (total_events : nat).

Section Statistics.

(** The sum of a float series; the order of the additions is numpy's and
    stays a parameter. *)
Variable series_sum : list float -> float.

Definition series_mean (xs : list float) : float :=
  div (series_sum xs) (of_Z (Z.of_nat (List.length xs))).

Definition summary (chart_data : list row) : statistics :=
  let valid := map Time_s (filter has_time chart_data) in
  match valid with
  | x :: (y :: ys) =>
      let lo := series_min x (y :: ys) in
      let hi := series_max x (y :: ys) in
      Full lo hi (sub hi lo) (series_mean valid) (List.length chart_data)
  | _ => CountOnly (List.length chart_data)
  end.

End Statistics.

(** The count of the records whose time is not null. *)
Definition valid_count (chart_data : list row) : nat :=
  List.length (filter has_time chart_data).

(** The count a statistics panel shows. *)
Definition shown_count (s : statistics) : nat :=
  match s with
  | Full _ _ _ _ n => n
  | CountOnly n => n
  end.

(** [min] of a group, NaN skipped: NaN when nothing is left. *)
Definition group_min (xs : list float) : float :=
  match filter (fun v => negb (is_nan v)) xs with
  | [] => nan
  | x :: rest => series_min x rest
  end.

(** [_rank_to_num] *)
Definition rank_to_num (x : cell) : float :=
  match x with
  | None => nan
  | Some s =>
      match py_float s with
      | Ok v => v
      | Raise _ => nan
      end
  end.

(** [count] of a column in a group: the cells that are not missing. *)
Definition count_present (cs : list cell) : nat :=
  List.length (filter (fun c => match c with
                                | Some _ => true
                                | None => false
                                end) cs).

(** A row of the event comparison. *)
Record comparison_row : Type := {
  comp_Event_Type : string;
  Best_Time_s : float;
  Event_Count : nat;
  Best_Rank : float
}.

Definition group (event_type : string) (df : list row) : list row :=
  filter (fun r => String.eqb (Event_Type r) event_type) df.

(** The group keys of [groupby("Event_Type")]: each once, sorted. *)
Definition group_keys (df : list row) : list string :=
  PyStr.sorted (Frame.unique (map Event_Type df)).

(** The event comparison: per event type the least time, the count of the
    [Time] column, and the least numeric rank. *)
Definition event_comparison (filtered : list row) : list comparison_row :=
  map (fun k =>
         let g := group k filtered in
         {| comp_Event_Type := k;
            Best_Time_s := group_min (map Time_s g);
            Event_Count := count_present (map Time g);
            Best_Rank := group_min (map (fun r => rank_to_num (Rank r)) g) |})
      (group_keys filtered).

End Query.

(* ------------------------------------------------------------------ *)
(** ** Small tables to run the definitions on *)

Module Scenario.

(** No date is readable. *)
Definition no_dates (_ : cell) : timestamp := None.

(** A row of a file with a name, a time and an event type only. *)
Definition entry (name : cell) (time : cell) (event : string) : Raw.row :=
  {| Raw.Meet_Name := None;
     Raw.Meet_Date := None;
     Raw.Name := name;
     Raw.Age := None;
     Raw.No_of_Participants := None;
     Raw.Rank := None;
     Raw.Time := time;
     Raw.Team := None;
     Raw.Notes := None;
     Raw.DQ := None;
     Raw.DQ_Reason := None;
     Raw.Event_Type := event |}.

(** Three results of one swimmer, the second a disqualification. *)
Definition ann_lee : list row :=
  Frame.load no_dates
    [ entry (Some "Ann Lee") (Some "1:05.00") "Freestyle";
      entry (Some "Ann Lee") (Some "DQ") "Freestyle";
      entry (Some "Ann Lee") (Some "1:00.00") "Freestyle" ].


(** The first of the three results. *)
Definition ann_lee_first : row :=
  Frame.clean no_dates (entry (Some "Ann Lee") (Some "1:05.00") "Freestyle").

(** The row of the event comparison of the three results. *)
Definition ann_lee_comparison : Query.comparison_row :=
  {| Query.comp_Event_Type := "Freestyle";
     Query.Best_Time_s := of_Z 60;
     Query.Event_Count := 3;
     Query.Best_Rank := nan |}.

(** A sum from left to right. *)
Definition left_sum (xs : list float) : float :=
  fold_left add xs (S754_zero false).

End Scenario.

Module DateScenario.

(** The date text is a count of days; anything else is unreadable. *)
Definition days (c : cell) : timestamp :=
  match c with
  | Some s =>
      match py_int s with
      | Ok d => Some (Query.midnight d)
      | Raise _ => None
      end
  | None => None
  end.

Definition dated (date : cell) : Raw.row :=
  {| Raw.Meet_Name := None;
     Raw.Meet_Date := date;
     Raw.Name := Some "Ann Lee";
     Raw.Age := None;
     Raw.No_of_Participants := None;
     Raw.Rank := None;
     Raw.Time := Some "30.00";
     Raw.Team := None;
     Raw.Notes := None;
     Raw.DQ := None;
     Raw.DQ_Reason := None;
     Raw.Event_Type := "Freestyle" |}.

(** Results on the days 10, 20 and 30, and one without a date. *)
Definition four : list row :=
  Frame.load days [dated (Some "10"); dated (Some "20"); dated (Some "30"); dated None].

End DateScenario.

Module NameScenario.

(** A result without a name cell; one with a name of blanks only. *)
Definition unnamed : Raw.row := Scenario.entry None (Some "30.00") "Freestyle".
Definition blank : Raw.row := Scenario.entry (Some "   ") (Some "31.00") "Freestyle".

Definition loaded : list row := Frame.load Scenario.no_dates [unnamed; blank].

End NameScenario.

(* ------------------------------------------------------------------ *)
(** ** The rest of the program: listings, filter chain, metrics, chart *)

Module App.

(** [Series.dropna()] on a column of text. *)
Fixpoint dropna (cs : list cell) : list string :=
match cs with
| [] => []
| Some s :: r => s :: dropna r
| None :: r => dropna r
end.

(** [get_available_events] *)
Definition get_available_events (df : list row) : list string :=
PyStr.sorted (Frame.unique (map Event_Type df)).

(** The options of the three select boxes of the sidebar. *)
Definition swimmer_options (df : list row) : list string :=
"All Swimmers" :: Frame.get_available_swimmers df.

Definition event_options (df : list row) : list string :=
"All Events" :: get_available_events df.

Definition team_options (df : list row) : list string :=
"All Teams" :: PyStr.sorted (Frame.unique (dropna (map Team df))).

(** The filters of [main], in the order of the program: swimmer, event,
    team, date range. *)
Definition apply_filters (swimmer_name event_type selected_team : string)
  (date_range : option (list Z)) (df : list row) : list row :=
Query.by_date date_range
  (Query.by_team selected_team
     (Query.by_event event_type
        (Query.by_swimmer swimmer_name df))).

(** [Series.nunique()]: the count of the distinct values that are not
    missing. *)
Definition nunique (cs : list cell) : nat :=
List.length (Frame.unique (dropna cs)).

(** The four summary metrics. *)
Record metrics : Type := {
  Total_Results : nat;
  Unique_Swimmers : nat;
  Event_Types : nat;
  Total_Meets : nat
}.

Definition summary_metrics (filtered : list row) : metrics :=
{| Total_Results := List.length filtered;
   Unique_Swimmers := nunique (map (fun r => Some (Name r)) filtered);
   Event_Types := nunique (map (fun r => Some (Event_Type r)) filtered);
   Total_Meets := nunique (map Meet_Name filtered) |}.

(** The order of [sort_values("Meet_Date")]: ascending, [NaT] last. *)
Definition date_le (a b : timestamp) : bool :=
match a, b with
| Some x, Some y => x <=? y
| _, None => true
| None, Some _ => false
end.

(** The data of the trace of the chart: dates, times in seconds, and the raw
    time and rank shown on hover.  Titles and styling are not modelled. *)
Record figure : Type := {
  fig_x : list timestamp;
  fig_y : list float;
  fig_customdata : list (cell * cell)
}.

Section Chart.

(** [df.sort_values("Meet_Date")]: pandas sorts with an unstable algorithm,
    so the order of rows of one date is the library's; the function stays a
    parameter. *)
Variable sort_by_date : list row -> list row.

(** [create_performance_chart] *)
Definition create_performance_chart (df : list row) : option figure :=
match df with
| [] => None
| _ =>
    match filter Query.has_time df with
    | [] => None
    | valid =>
        let df_chart := sort_by_date valid in
        Some {| fig_x := map Meet_Date df_chart;
                fig_y := map Time_s df_chart;
                fig_customdata := map (fun r => (Time r, Rank r)) df_chart |}
    end
end.

End Chart.

(** An insertion sort by date, one of the orders [sort_values] may give. *)
Fixpoint insert_by_date (r : row) (l : list row) : list row :=
match l with
| [] => [r]
| u :: us =>
    if date_le (Meet_Date r) (Meet_Date u) then r :: l
    else u :: insert_by_date r us
end.

Fixpoint insertion_sort_by_date (l : list row) : list row :=
match l with
| [] => []
| r :: rs => insert_by_date r (insertion_sort_by_date rs)
end.

(** Ascending order of texts, as [sorted] gives it. *)
Definition ascending (l : list string) : Prop :=
StronglySorted (fun a b => String.leb a b = true) l.

Definition by_date_ascending (l : list row) : Prop :=
StronglySorted (fun a b => date_le (Meet_Date a) (Meet_Date b) = true) l.

(** The text is empty or its first character is not one that [p] strips. *)
Definition head_kept (p : ascii -> bool) (u : string) : Prop :=
match u with
| EmptyString => True
| String c _ => p c = false
end.

(** No character of the text is white space. *)
Fixpoint no_space (s : string) : bool :=
match s with
| EmptyString => true
| String c r => (negb (PyStr.isspace c) && no_space r)%bool
end.

End App.

Module BestSpec.

(** The time that the best-performance panel is about: that of the chosen
    row, null when no row has a time. *)
Definition best_time (b : Query.best) : float :=
match b with
| Query.BestRow r => Time_s r
| Query.AllNoTime => nan
end.

(** Two results with the same time, after a slower one. *)
Definition tie : list row :=
Frame.load Scenario.no_dates
  [ Scenario.entry (Some "Ann Lee") (Some "31.00") "Freestyle";
    Scenario.entry (Some "Ann Lee") (Some "30.00") "Freestyle";
    Scenario.entry (Some "Ann Lee") (Some "30.0") "Freestyle" ].

Definition tie_first : row :=
Frame.clean Scenario.no_dates
  (Scenario.entry (Some "Ann Lee") (Some "30.00") "Freestyle").

End BestSpec.

Module FilterSpec.

(** What each of the first three filters asks of a row; the entry for all
    asks nothing. *)
Definition swimmer_ok (swimmer_name : string) (r : row) : bool :=
(String.eqb swimmer_name "All Swimmers" ||
 String.eqb (Query.name_key (Name r)) (Query.name_key swimmer_name))%bool.

Definition event_ok (event_type : string) (r : row) : bool :=
(String.eqb event_type "All Events" || String.eqb (Event_Type r) event_type)%bool.

Definition team_ok (selected_team : string) (r : row) : bool :=
(String.eqb selected_team "All Teams" ||
 match Team r with
 | Some t => String.eqb t selected_team
 | None => false
 end)%bool.

Definition passes (swimmer_name event_type selected_team : string) (r : row) : bool :=
(swimmer_ok swimmer_name r && event_ok event_type r && team_ok selected_team r)%bool.

End FilterSpec.

(* ------------------------------------------------------------------ *)
(** ** Files and their event types *)

Module Files.

(** [s.replace(old, new)] for one-character [old] and [new]. *)
Fixpoint replace (old new : ascii) (s : string) : string :=
match s with
| EmptyString => EmptyString
| String c r => String (if Ascii.eqb c old then new else c) (replace old new r)
end.

(** [file.stem.replace("_", " ")] *)
Definition event_type (stem : string) : string := replace "_" " " stem.

(** [df["Event_Type"] = ...] on one row. *)
Definition with_event (e : string) (r : Raw.row) : Raw.row :=
{| Raw.Meet_Name := Raw.Meet_Name r;
   Raw.Meet_Date := Raw.Meet_Date r;
   Raw.Name := Raw.Name r;
   Raw.Age := Raw.Age r;
   Raw.No_of_Participants := Raw.No_of_Participants r;
   Raw.Rank := Raw.Rank r;
   Raw.Time := Raw.Time r;
   Raw.Team := Raw.Team r;
   Raw.Notes := Raw.Notes r;
   Raw.DQ := Raw.DQ r;
   Raw.DQ_Reason := Raw.DQ_Reason r;
   Raw.Event_Type := e |}.

(** A file that was read: its stem and its rows, as [read_csv] and
    [dropna(how="all")] leave them.  A file that could not be read is not in
    the list. *)
Definition file : Type := (string * list Raw.row)%type.

(** The frame of one file, with its event type on every row. *)
Definition frame (f : file) : list Raw.row :=
map (with_event (event_type (fst f))) (snd f).

(** [pd.concat(all_data, ignore_index=True)] *)
Definition combined (files : list file) : list Raw.row :=
List.concat (map frame files).

(** A file named after its event, with one result. *)
Definition free_50 : file :=
("50_Yard_Free", [Scenario.entry (Some "Ann Lee") (Some "30.00") "unset"]).

End Files.

(* ------------------------------------------------------------------ *)
(** ** The date input of the sidebar *)

Module DateInput.

(** [Timestamp.date()]: the day of a moment, in days since the epoch. *)
Definition date_of (t : Z) : Z := t / 86400000000000.

(** The dates of the table that are not [NaT]. *)
Fixpoint present_dates (df : list row) : list Z :=
match df with
| [] => []
| r :: rs =>
    match Meet_Date r with
    | Some d => d :: present_dates rs
    | None => present_dates rs
    end
end.

(** The value that the date input is given, and returns as long as the user
    leaves it: the days of the least and of the greatest date of the table;
    no range when the table has no date. *)
Definition default_date_range (df : list row) : option (list Z) :=
if Query.all_dates_null df then None
else
  match present_dates df with
  | [] => None
  | d :: ds =>
      let min_date := date_of (fold_left Z.min ds d) in
      let max_date := date_of (fold_left Z.max ds d) in
      Some [min_date; max_date]
  end.

(** Two results of one day, the second one at noon. *)
Definition noon (_ : cell) : timestamp := Some (Query.midnight 10 + 43200000000000).

Definition morning_row : row :=
Frame.clean DateScenario.days (DateScenario.dated (Some "10")).

Definition noon_row : row :=
Frame.clean noon (DateScenario.dated (Some "10")).

Definition one_day : list row := [morning_row; noon_row].

End DateInput.

(* ------------------------------------------------------------------ *)
(** ** Names and their tokens *)

Module NameSpec.

(** A token, as [split] gives it: not empty and without white space. *)
Definition token (t : string) : bool :=
(negb (String.eqb t "") && App.no_space t)%bool.

(** No character of the text is a capital letter. *)
Fixpoint no_capital (s : string) : bool :=
match s with
| EmptyString => true
| String c r => (negb (PyStr.between 65 90 c) && no_capital r)%bool
end.

(** A token in lower case. *)
Definition plain (t : string) : bool := (token t && no_capital t)%bool.

End NameSpec.
(* ------------------------------------------------------------------ *)
(** ** Rounding never yields NaN *)

Section RoundingNotNaN.

Lemma shr_1_nonneg (mrs : shr_record) :
  0 <= shr_m mrs -> 0 <= shr_m (shr_1 mrs).
Proof.
  destruct mrs as [m r s]; simpl.
  destruct m as [|p|p]; [ intros _; simpl; lia | | lia ].
  destruct p; intros _; simpl; lia.
Qed.

Lemma iter_pos_invariant {A : Type} (P : A -> Prop) (f : A -> A) :
  (forall x, P x -> P (f x)) ->
  forall n x, P x -> P (iter_pos f n x).
Proof.
  intros Hf; induction n as [n IH|n IH|]; intros x Hx; simpl; auto.
Qed.

Lemma shr_nonneg (mrs : shr_record) (e n : Z) :
  0 <= shr_m mrs -> 0 <= shr_m (fst (shr mrs e n)).
Proof.
  intros H; unfold shr; destruct n; simpl; auto.
  apply (iter_pos_invariant (fun r => 0 <= shr_m r)); auto using shr_1_nonneg.
Qed.

Lemma shr_record_of_loc_m (m : Z) (l : location) :
  shr_m (shr_record_of_loc m l) = m.
Proof. destruct l as [|[ | | ]]; reflexivity. Qed.

Lemma shr_fexp_nonneg (p em m e : Z) (l : location) :
  0 <= m -> 0 <= shr_m (fst (shr_fexp p em m e l)).
Proof.
  intros H; unfold shr_fexp; apply shr_nonneg.
  now rewrite shr_record_of_loc_m.
Qed.

Lemma round_nearest_even_nonneg (m : Z) (l : location) :
  0 <= m -> 0 <= round_nearest_even m l.
Proof.
  intros H; destruct l as [|[ | | ]]; simpl; try lia.
  destruct (Z.even m); lia.
Qed.

Lemma binary_round_aux_not_nan (p em : Z) (sx : bool) (mx ex : Z) (lx : location) :
  0 <= mx -> is_nan (binary_round_aux p em sx mx ex lx) = false.
Proof.
  intros H; unfold binary_round_aux.
  pose proof (shr_fexp_nonneg p em mx ex lx H) as H1.
  destruct (shr_fexp p em mx ex lx) as [mrs' e']; simpl in H1.
  pose proof (shr_fexp_nonneg p em _ e' loc_Exact
                (round_nearest_even_nonneg _ (loc_of_shr_record mrs') H1)) as H2.
  destruct (shr_fexp p em (round_nearest_even (shr_m mrs') (loc_of_shr_record mrs'))
              e' loc_Exact) as [mrs'' e'']; simpl in H2.
  destruct (shr_m mrs'') as [|q|q]; [ reflexivity | | lia ].
  destruct (e'' <=? em - p); reflexivity.
Qed.

Lemma binary_round_not_nan (p em : Z) (sx : bool) (mx : positive) (ex : Z) :
  is_nan (binary_round p em sx mx ex) = false.
Proof.
  unfold binary_round.
  destruct (shl_align mx ex _) as [mz ez].
  apply binary_round_aux_not_nan; lia.
Qed.

Lemma binary_normalize_not_nan (p em m e : Z) (sz : bool) :
  is_nan (binary_normalize p em m e sz) = false.
Proof.
  destruct m; simpl; auto using binary_round_not_nan.
Qed.

Lemma of_Z_not_nan (z : Z) : is_nan (of_Z z) = false.
Proof. apply binary_normalize_not_nan. Qed.

Lemma of_decimal_not_nan (neg : bool) (d k : Z) :
  is_nan (of_decimal neg d k) = false.
Proof.
  unfold of_decimal.
  destruct d as [|p|p]; try reflexivity.
  destruct k as [|k|k]; try apply binary_normalize_not_nan.
  unfold SFdiv_core_binary.
  set (s := _ - _ - _).
  set (m' := match s with Z0 => Z.pos p | Z.pos _ => Z.shiftl (Z.pos p) s | Z.neg _ => 0 end).
  assert (Hm : 0 <= m').
  { subst m'; destruct s; try lia. apply Z.shiftl_nonneg; lia. }
  pose proof (Z.div_eucl_eq m' (Z.pow_pos 10 k)) as Hq.
  pose proof (Z_div_pos m' (Z.pow_pos 10 k)) as Hd.
  unfold Z.div in Hd.
  destruct (Z.div_eucl m' (Z.pow_pos 10 k)) as [q r].
  apply binary_round_aux_not_nan.
  apply Hd; [ | lia ].
  apply Z.lt_gt. rewrite Z.pow_pos_fold. apply Z.pow_pos_nonneg; lia.
Qed.

(** Adding a finite number keeps NaN apart: the sum is NaN exactly when the
    other operand is. *)
Lemma add_finite_nan (i x : float) :
  is_finite i = true -> is_nan (add i x) = is_nan x.
Proof.
  unfold add, SFadd.
  destruct i as [si|si| |si mi ei]; try discriminate; intros _;
    destruct x as [sx|sx| |sx mx ex]; try reflexivity.
  - destruct si, sx; reflexivity.
  - apply binary_normalize_not_nan.
Qed.

Lemma of_int_finite (z : Z) (i : float) : of_int z = Ok i -> is_finite i = true.
Proof.
  unfold of_int; pose proof (of_Z_not_nan z) as H.
  destruct (of_Z z); inversion 1; subst; try reflexivity; discriminate.
Qed.

End RoundingNotNaN.

(* ------------------------------------------------------------------ *)
(** ** The time parser: when the result is null, and what it is otherwise *)

Section ParseTime.

Import PyStr.

Lemma py_float_nan (r : string) (x : float) :
  py_float r = Ok x -> is_nan x = nan_text r.
Proof.
  unfold py_float, nan_text.
  destruct (drop_underscores None (strip_by c_isspace r)) as [t|]; [ | discriminate ].
  destruct (sign t) as [neg w]; simpl.
  destruct (String.eqb (lower w) "inf") eqn:E1.
  - simpl. apply String.eqb_eq in E1. rewrite E1. inversion 1; reflexivity.
  - destruct (String.eqb (lower w) "infinity") eqn:E2.
    + simpl. apply String.eqb_eq in E2. rewrite E2. inversion 1; reflexivity.
    + simpl. destruct (String.eqb (lower w) "nan").
      * inversion 1; reflexivity.
      * destruct (decimal w) as [[d k]|]; [ | discriminate ].
        inversion 1; apply of_decimal_not_nan.
Qed.

Lemma py_float_raises_not_nan_text (r : string) :
  raises (py_float r) = true -> nan_text r = false.
Proof.
  unfold py_float, nan_text.
  destruct (drop_underscores None (strip_by c_isspace r)) as [t|]; [ | reflexivity ].
  destruct (sign t) as [neg w]; simpl.
  destruct (String.eqb (lower w) "inf" || String.eqb (lower w) "infinity")%bool;
    [ discriminate | ].
  destruct (String.eqb (lower w) "nan"); [ discriminate | reflexivity ].
Qed.

Lemma parse_time_marker (t : string) :
  is_marker t = true -> parse_time_to_seconds (Some t) = nan.
Proof.
  unfold is_marker, normal, parse_time_to_seconds; intros ->; reflexivity.
Qed.

Lemma parse_time_body_eq (t : string) :
  is_marker t = false ->
  parse_time_to_seconds (Some t) =
  match parse_time_body (normal t) with
  | Ok v => v
  | Raise _ => nan
  end.
Proof.
  unfold is_marker, normal, parse_time_to_seconds; intros ->; reflexivity.
Qed.

(** With a colon, minutes and seconds read and sixty times the minutes in
    the range of a float: the result is their float sum. *)
Lemma parse_time_colon (t : string) (m : Z) (x i : float) :
  is_marker t = false ->
  contains ":" (normal t) = true ->
  py_int (fst (split1 ":" (normal t))) = Ok m ->
  py_float (snd (split1 ":" (normal t))) = Ok x ->
  of_int (m * 60) = Ok i ->
  parse_time_to_seconds (Some t) = add i x.
Proof.
  intros Hm Hc Hi Hf Ho.
  rewrite (parse_time_body_eq t Hm).
  unfold parse_time_body; rewrite Hc.
  destruct (split1 ":" (normal t)) as [mm ss]; simpl in *.
  rewrite Hi; simpl. rewrite Hf; simpl. rewrite Ho; reflexivity.
Qed.

Lemma parse_time_plain (t : string) (x : float) :
  is_marker t = false ->
  contains ":" (normal t) = false ->
  py_float (normal t) = Ok x ->
  parse_time_to_seconds (Some t) = x.
Proof.
  intros Hm Hc Hf.
  rewrite (parse_time_body_eq t Hm).
  unfold parse_time_body; rewrite Hc, Hf; reflexivity.
Qed.

Lemma parse_time_null_cases (t : string) :
  is_nan (parse_time_to_seconds (Some t)) =
  (is_marker t || parse_fails (normal t) || minutes_overflow (normal t)
   || nan_text (seconds_part (normal t)))%bool.
Proof.
  destruct (is_marker t) eqn:Hm.
  - rewrite (parse_time_marker t Hm); reflexivity.
  - rewrite (parse_time_body_eq t Hm); simpl.
    unfold parse_time_body, parse_fails, minutes_overflow, seconds_part.
    destruct (contains ":" (normal t)) eqn:Hc; simpl.
    + destruct (split1 ":" (normal t)) as [mm ss]; simpl.
      destruct (py_int mm) as [m|e] eqn:Hi; simpl.
      * destruct (py_float ss) as [x|e] eqn:Hf; simpl.
        -- rewrite <- (py_float_nan ss x Hf).
           destruct (of_int (m * 60)) as [i|e] eqn:Ho; simpl.
           ++ apply add_finite_nan, (of_int_finite _ _ Ho).
           ++ reflexivity.
        -- reflexivity.
      * reflexivity.
    + destruct (py_float (normal t)) as [x|e] eqn:Hf; simpl.
      * now rewrite <- (py_float_nan _ x Hf).
      * reflexivity.
Qed.

Lemma colon_not_marker (s : string) :
  contains ":" s = true -> mem s DQ_LIKE = false.
Proof.
  intros Hc; unfold DQ_LIKE, mem.
  repeat match goal with
         | |- (if String.eqb s ?m then true else _) = false =>
             destruct (String.eqb s m) eqn:E;
             [ apply String.eqb_eq in E; subst s; discriminate Hc | clear E ]
         end.
  reflexivity.
Qed.

(** C1, amended.  The result is null exactly when the trimmed, upper-cased
    text is a non-finishing marker, or numeric parsing fails, or sixty times
    the minutes is out of the range of a float, or the seconds read as NaN.
    With a colon, minutes read as an integer, seconds as a float and the
    minutes in range, the result is the float sum of sixty times the minutes
    and the seconds; without a colon it is what [float] reads.  Whatever the
    body raises, the caller gets null; a missing cell gives null. *)
Theorem parse_time_spec (t : string) :
  (is_nan (parse_time_to_seconds (Some t)) = true <->
     is_marker t = true \/ parse_fails (normal t) = true \/
     minutes_overflow (normal t) = true \/
     nan_text (seconds_part (normal t)) = true)
  /\ (forall (m : Z) (x i : float),
        is_marker t = false ->
        contains ":" (normal t) = true ->
        py_int (fst (split1 ":" (normal t))) = Ok m ->
        py_float (snd (split1 ":" (normal t))) = Ok x ->
        of_int (m * 60) = Ok i ->
        parse_time_to_seconds (Some t) = add i x)
  /\ (forall x : float,
        is_marker t = false ->
        contains ":" (normal t) = false ->
        py_float (normal t) = Ok x ->
        parse_time_to_seconds (Some t) = x)
  /\ (forall e : exn,
        parse_time_body (normal t) = Raise e ->
        parse_time_to_seconds (Some t) = nan)
  /\ parse_time_to_seconds None = nan.
Proof.
  repeat split.
  - intros H. rewrite parse_time_null_cases in H.
    apply orb_true_iff in H; destruct H as [H|H]; auto.
    apply orb_true_iff in H; destruct H as [H|H]; auto.
    apply orb_true_iff in H; destruct H as [H|H]; auto.
  - intros H. rewrite parse_time_null_cases.
    destruct H as [H|[H|[H|H]]]; rewrite H; repeat rewrite orb_true_r; reflexivity.
  - intros m x i; apply parse_time_colon.
  - intros x; apply parse_time_plain.
  - intros e He. destruct (is_marker t) eqn:Hm.
    + now apply parse_time_marker.
    + rewrite (parse_time_body_eq t Hm), He; reflexivity.
Qed.

Lemma parse_time_spec_witness :
  parse_time_to_seconds (Some "1:02.34") =
  add (of_Z 60) (S754_finite false 5269211564023480 (-51)).
Proof.
  destruct (parse_time_spec "1:02.34") as (_ & H & _).
  exact (H 1 _ _ eq_refl eq_refl eq_refl eq_refl eq_refl).
Defined.

(** C1 as it is written fails on the text [nan]: the result is null, the
    text is no marker, and [float] reads it without failing. *)
Lemma parse_time_nan_counterexample :
  ~ (is_nan (parse_time_to_seconds (Some "nan")) = true <->
     is_marker "nan" = true \/ parse_fails (normal "nan") = true).
Proof.
  intros [H _]. destruct (H eq_refl) as [H1|H1]; vm_compute in H1; discriminate H1.
Qed.

(** C10, amended.  No range check on the colon form: whenever the minutes
    read as an integer, the seconds as a float, and sixty times the minutes
    is in the range of a float, the result is their float sum, and it is
    not null unless the seconds are NaN; seconds of sixty and more and
    negative parts go through. *)
Theorem parse_time_no_range_check (t : string) (m : Z) (x i : float) :
  contains ":" (normal t) = true ->
  py_int (fst (split1 ":" (normal t))) = Ok m ->
  py_float (snd (split1 ":" (normal t))) = Ok x ->
  of_int (m * 60) = Ok i ->
  parse_time_to_seconds (Some t) = add i x /\
  is_nan (parse_time_to_seconds (Some t)) = is_nan x.
Proof.
  intros Hc Hi Hf Ho.
  assert (E : parse_time_to_seconds (Some t) = add i x)
    by (apply (parse_time_colon t m); auto; apply colon_not_marker, Hc).
  split; [ exact E | ].
  rewrite E. apply add_finite_nan, (of_int_finite _ _ Ho).
Qed.

Lemma parse_time_no_range_check_witness :
  parse_time_to_seconds (Some "1:99") = of_Z 159 /\
  parse_time_to_seconds (Some "-1:30") = of_Z (-30).
Proof.
  split.
  - exact (eq_trans
             (proj1 (parse_time_no_range_check "1:99" 1 (of_Z 99) (of_Z 60)
                       eq_refl eq_refl eq_refl eq_refl))
             eq_refl).
  - exact (eq_trans
             (proj1 (parse_time_no_range_check "-1:30" (-1) (of_Z 30) (of_Z (-60))
                       eq_refl eq_refl eq_refl eq_refl))
             eq_refl).
Defined.

(** C10 as it is written fails when the minutes are a one followed by 310
    zeros: both parts are read, and the result is null, not a sum. *)
Lemma parse_time_huge_minutes_counterexample :
  contains ":" (normal huge_minutes) = true /\
  py_int (fst (split1 ":" (normal huge_minutes))) = Ok (10 ^ 310) /\
  py_float (snd (split1 ":" (normal huge_minutes))) = Ok (S754_zero false) /\
  parse_time_to_seconds (Some huge_minutes) = nan /\
  add (of_Z (10 ^ 310 * 60)) (S754_zero false) = S754_infinity false.
Proof. vm_compute. repeat split; reflexivity. Qed.

End ParseTime.

(* ------------------------------------------------------------------ *)
(** ** The shape of the decimal text *)

Section DecimalText.

Import PyStr.

Lemma length_app (a b : string) :
  String.length (a ++ b) = (String.length a + String.length b)%nat.
Proof. induction a as [|c a IH]; simpl; auto. Qed.

Lemma all_digits_app (a b : string) :
  all_digits a = true -> all_digits b = true -> all_digits (a ++ b) = true.
Proof.
  induction a as [|c a IH]; simpl; auto.
  intros H; apply andb_true_iff in H; destruct H as [Hc Ha].
  intros Hb; rewrite Hc; simpl; auto.
Qed.

Lemma digit_char_isdigit (d : Z) : 0 <= d <= 9 -> isdigit (digit_char d) = true.
Proof.
  intros H.
  assert (E : d = 0 \/ d = 1 \/ d = 2 \/ d = 3 \/ d = 4 \/
              d = 5 \/ d = 6 \/ d = 7 \/ d = 8 \/ d = 9) by lia.
  repeat (destruct E as [E|E]; [ subst d; reflexivity | ]).
  subst d; reflexivity.
Qed.

Lemma digits_fuel_all_digits (fuel : nat) :
  forall (n : Z) (acc : string),
    0 <= n -> all_digits acc = true -> all_digits (digits_fuel fuel n acc) = true.
Proof.
  induction fuel as [|f IH]; intros n acc Hn Hacc; simpl; auto.
  assert (Hd : all_digits (String (digit_char (n mod 10)) acc) = true).
  { simpl. rewrite digit_char_isdigit; auto.
    pose proof (Z.mod_pos_bound n 10); lia. }
  destruct (n <? 10); auto.
  apply IH; auto. apply Z.div_pos; lia.
Qed.

Lemma digits_fuel_length (fuel : nat) :
  forall (n : Z) (acc : string),
    (String.length acc <= String.length (digits_fuel fuel n acc))%nat.
Proof.
  induction fuel as [|f IH]; intros n acc; simpl; auto.
  destruct (n <? 10); simpl; auto.
  eapply Nat.le_trans; [ | apply IH ]. simpl; auto.
Qed.

Lemma str_of_nonneg_digits (n : Z) :
  0 <= n ->
  all_digits (str_of_nonneg n) = true /\ (1 <= String.length (str_of_nonneg n))%nat.
Proof.
  intros Hn; unfold str_of_nonneg; split.
  - apply digits_fuel_all_digits; auto.
  - simpl. destruct (n <? 10); simpl; [ auto | ].
    eapply Nat.le_trans; [ | apply digits_fuel_length ]. simpl; lia.
Qed.

Lemma fixed2_shape (n : Z) : 0 <= n -> fixed_text 1 (fixed2 n).
Proof.
  intros Hn; unfold fixed2.
  destruct (str_of_nonneg_digits (n / 100)) as [Ha Hl];
    [ apply Z.div_pos; lia | ].
  exists (str_of_nonneg (n / 100)), (digit_char (n mod 100 / 10)), (digit_char (n mod 10)).
  repeat split; auto; apply digit_char_isdigit.
  - pose proof (Z.mod_pos_bound n 100).
    assert (0 <= n mod 100 / 10) by (apply Z.div_pos; lia).
    assert (n mod 100 / 10 < 10) by (apply Z.div_lt_upper_bound; lia).
    lia.
  - pose proof (Z.mod_pos_bound n 10); lia.
Qed.

Lemma round_half_even_nonneg (num den : Z) :
  0 <= num -> 0 < den -> 0 <= round_half_even num den.
Proof.
  intros Hn Hd; unfold round_half_even.
  assert (0 <= num / den) by (apply Z.div_pos; lia).
  destruct (2 * (num mod den) ?= den); try lia.
  destruct (Z.even (num / den)); lia.
Qed.

Lemma hundredths_nonneg (m : positive) (e : Z) : 0 <= hundredths m e.
Proof.
  unfold hundredths; destruct e as [|p|p].
  - lia.
  - pose proof (Z.pow_pos_nonneg 2 (Z.pos p)); lia.
  - apply round_half_even_nonneg; [ lia | ].
    apply Z.pow_pos_nonneg; lia.
Qed.

(** A finite number in [.2f] is digits, a point and two digits, behind its
    sign. *)
Lemma body_2f_shape (x : float) : is_finite x = true -> fixed_text 1 (body_2f x).
Proof.
  destruct x as [s|s| |s m e]; try discriminate; intros _; simpl.
  - exists "0", "0"%char, "0"%char; repeat split; auto.
  - apply fixed2_shape, hundredths_nonneg.
Qed.

Lemma zeros_digits (k : nat) :
  all_digits (zeros k) = true /\ String.length (zeros k) = k.
Proof. induction k as [|k [IH1 IH2]]; simpl; auto. Qed.

Lemma append_assoc (a b c : string) : (a ++ b) ++ c = a ++ b ++ c.
Proof. induction a as [|x a IH]; simpl; congruence. Qed.

(** A finite number that is not negative in [05.2f] has two digits or more
    before the point. *)
Lemma format_05_2f_shape (x : float) :
  is_finite x = true -> sign_of x = false -> fixed_text 2 (format_05_2f x).
Proof.
  intros Hf Hs; unfold format_05_2f, sign_text; rewrite Hs; simpl.
  destruct (body_2f_shape x Hf) as (ip & d1 & d2 & E & Ha & Hl & H1 & H2).
  rewrite E.
  set (k := (5 - String.length (ip ++ String "." (String d1 (String d2 ""))))%nat).
  destruct (zeros_digits k) as [Hz Hk].
  exists (zeros k ++ ip), d1, d2.
  repeat split; auto.
  - now rewrite append_assoc.
  - now apply all_digits_app.
  - rewrite length_app, Hk. subst k. rewrite length_app.
    change (String.length (String "." (String d1 (String d2 "")))) with 3%nat. lia.
Qed.

Lemma format_2f_nonneg_shape (x : float) :
  is_finite x = true -> sign_of x = false -> fixed_text 1 (format_2f x).
Proof.
  intros Hf Hs; unfold format_2f, sign_text; rewrite Hs; simpl.
  now apply body_2f_shape.
Qed.

End DecimalText.

(* ------------------------------------------------------------------ *)
(** ** The time formatter *)

Section FormatTime.

Import PyStr.

Variable float_str : float -> string.

Let fmt := format_time float_str.
Let text (x : pyval) : string := strip (py_str float_str x).

Lemma format_time_na (x : pyval) : isna x = true -> fmt x = "N/A".
Proof. unfold fmt, format_time; intros ->; reflexivity. Qed.

Lemma format_time_marker (x : pyval) :
  isna x = false ->
  (mem (upper (text x)) DQ_LIKE = true \/ upper (text x) = "N/A") ->
  fmt x = text x.
Proof.
  unfold fmt, text, format_time; intros -> [H|H]; rewrite H; simpl; auto.
Qed.

Lemma format_time_colon (x : pyval) :
  isna x = false -> contains ":" (text x) = true -> fmt x = text x.
Proof.
  unfold fmt, text, format_time; intros -> H; rewrite H.
  destruct (mem _ DQ_LIKE || _)%bool; reflexivity.
Qed.

Lemma format_time_seconds (x : pyval) :
  isna x = false ->
  mem (upper (text x)) DQ_LIKE = false ->
  upper (text x) <> "N/A" ->
  contains ":" (text x) = false ->
  fmt x = match format_seconds (text x) with
          | Ok r => r
          | Raise _ => text x
          end.
Proof.
  unfold fmt, text, format_time; intros -> Hm Hn Hc.
  rewrite Hm, Hc. apply String.eqb_neq in Hn. rewrite Hn. reflexivity.
Qed.

End FormatTime.

(** C2, amended.  A missing value gives ["N/A"].  Otherwise, with [s] the
    trimmed text of the value: a non-finishing marker in any casing, the text
    [N/A], and a text with a colon are returned as [s], white space at the
    ends removed and the casing kept.  Any other text is read as seconds.
    Below sixty the result is the seconds with two decimals.  From sixty on it
    is the minutes, a colon and the rest in [05.2f], which for a finite rest
    that is not negative has two digits or more before the point and two
    after.  When reading the seconds or converting the minutes raises, the
    result is [s]: nothing is raised to the caller. *)
Theorem format_time_spec (float_str : float -> string) (x : pyval) :
  let s := PyStr.strip (py_str float_str x) in
  let out := format_time float_str x in
  (isna x = true -> out = "N/A") /\
  (isna x = false ->
   (PyStr.mem (PyStr.upper s) DQ_LIKE = true -> out = s) /\
   (PyStr.upper s = "N/A" -> out = s) /\
   (PyStr.contains ":" s = true -> out = s) /\
   (PyStr.mem (PyStr.upper s) DQ_LIKE = false ->
    PyStr.upper s <> "N/A" ->
    PyStr.contains ":" s = false ->
    (forall e : exn, py_float s = Raise e -> out = s) /\
    (forall sec : float,
        py_float s = Ok sec -> leb (of_Z 60) sec = false ->
        out = format_2f sec /\
        (is_finite sec = true -> sign_of sec = false -> fixed_text 1 out)) /\
    (forall (sec : float) (m : Z) (i : float),
        py_float s = Ok sec -> leb (of_Z 60) sec = true ->
        to_int (floordiv sec (of_Z 60)) = Ok m ->
        of_int (m * 60) = Ok i ->
        out = str_of_Z m ++ ":" ++ format_05_2f (sub sec i) /\
        (is_finite (sub sec i) = true -> sign_of (sub sec i) = false ->
         fixed_text 2 (format_05_2f (sub sec i)))) /\
    (forall sec : float,
        py_float s = Ok sec -> leb (of_Z 60) sec = true ->
        raises (m <- to_int (floordiv sec (of_Z 60)) ;; of_int (m * 60)) = true ->
        out = s))).
Proof.
  intros s out; split; [ apply format_time_na | ].
  intros Hna.
  split; [ intros H; apply format_time_marker; auto | ].
  split; [ intros H; apply format_time_marker; auto | ].
  split; [ apply format_time_colon; auto | ].
  intros Hm Hn Hc.
  assert (E : out = match format_seconds s with Ok r => r | Raise _ => s end)
    by (apply format_time_seconds; auto).
  unfold format_seconds, bind in E.
  split; [ intros e He; rewrite E, He; reflexivity | ].
  split; [ | split ].
  - intros sec Hf Hle. rewrite Hf in E; cbv beta iota in E; rewrite Hle in E.
    split; [ exact E | ].
    intros Hfin Hs; rewrite E; now apply format_2f_nonneg_shape.
  - intros sec m i Hf Hle Hi Ho.
    rewrite Hf in E; cbv beta iota in E. rewrite Hle, Hi in E.
    cbv beta iota in E. rewrite Ho in E.
    split; [ exact E | ].
    intros Hfin Hs; now apply format_05_2f_shape.
  - intros sec Hf Hle Hr. rewrite Hf in E; cbv beta iota in E; rewrite Hle in E.
    unfold bind in Hr.
    destruct (to_int (floordiv sec (of_Z 60))) as [m|e]; [ | exact E ].
    destruct (of_int (m * 60)) as [i|e]; [ discriminate Hr | exact E ].
Qed.

Lemma format_time_spec_witness :
  format_time str_62_34 (VFloat f62_34) = "1:02.34" /\
  fixed_text 2 "02.34".
Proof.
  destruct (format_time_spec str_62_34 (VFloat f62_34)) as [_ H].
  destruct (H eq_refl) as (_ & _ & _ & H').
  destruct (H' eq_refl ltac:(discriminate) eq_refl) as (_ & _ & H'' & _).
  destruct (H'' f62_34 1 (of_Z 60) eq_refl eq_refl eq_refl eq_refl) as [E S].
  split; [ exact E | exact (S eq_refl eq_refl) ].
Defined.

(** C2 as it is written fails on a marker with white space around it: the
    text is recognized as a marker, and what comes back is the trimmed text,
    not the text. *)
Lemma format_time_padded_marker_counterexample :
  is_marker " dq " = true /\
  format_time str_62_34 (VStr " dq ") = "dq" /\
  format_time str_62_34 (VStr " dq ") <> " dq ".
Proof. repeat split; discriminate. Qed.

(* ------------------------------------------------------------------ *)
(** ** The order of floats that are not NaN *)

Section FloatOrder.

Lemma compare_cont_Eq (a b : positive) : Pos.compare_cont Eq a b = (a ?= b)%positive.
Proof. reflexivity. Qed.

Ltac order_cases :=
  repeat match goal with
         | H : context [Pos.compare_cont Eq ?a ?b] |- _ =>
             rewrite (compare_cont_Eq a b) in H
         | |- context [Pos.compare_cont Eq ?a ?b] =>
             rewrite (compare_cont_Eq a b)
         end;
  repeat match goal with
         | H : context [(?a ?= ?b)%Z] |- _ =>
             destruct (Z.compare_spec a b); simpl in H; try discriminate H
         | |- context [(?a ?= ?b)%Z] =>
             destruct (Z.compare_spec a b); simpl
         | H : context [(?a ?= ?b)%positive] |- _ =>
             destruct (Pos.compare_spec a b); simpl in H; try discriminate H
         | |- context [(?a ?= ?b)%positive] =>
             destruct (Pos.compare_spec a b); simpl
         end;
  try reflexivity; try discriminate; try lia.

Lemma leb_refl (x : float) : is_nan x = false -> leb x x = true.
Proof.
  unfold leb, SFleb, SFcompare.
  destruct x as [s|s| |s m e]; try discriminate; intros _; destruct s; order_cases.
Qed.

Lemma leb_trans (x y z : float) :
  leb x y = true -> leb y z = true -> leb x z = true.
Proof.
  unfold leb, SFleb, SFcompare.
  destruct x as [sx|sx| |sx mx ex]; destruct y as [sy|sy| |sy my ey];
    destruct z as [sz|sz| |sz mz ez]; try discriminate; try reflexivity;
    try destruct sx; try destruct sy; try destruct sz;
    try discriminate; try reflexivity; intros H1 H2; order_cases.
Qed.

Lemma leb_total (x y : float) :
  is_nan x = false -> is_nan y = false -> leb x y = true \/ leb y x = true.
Proof.
  unfold leb, SFleb, SFcompare.
  destruct x as [sx|sx| |sx mx ex]; destruct y as [sy|sy| |sy my ey];
    try discriminate; intros _ _;
    try destruct sx; try destruct sy; auto; order_cases; auto.
Qed.

(** Not below means above or equal, for floats that are not NaN. *)
Lemma ltb_false_leb (x y : float) :
  is_nan x = false -> is_nan y = false -> ltb x y = false -> leb y x = true.
Proof.
  unfold ltb, leb, SFltb, SFleb, SFcompare.
  destruct x as [sx|sx| |sx mx ex]; destruct y as [sy|sy| |sy my ey];
    try discriminate; intros _ _;
    try destruct sx; try destruct sy; auto; intros H; order_cases.
Qed.

Lemma ltb_leb (x y : float) : ltb x y = true -> leb x y = true.
Proof.
  unfold ltb, leb, SFltb, SFleb.
  destruct (SFcompare x y) as [[ | | ]|]; auto.
Qed.

End FloatOrder.

(* ------------------------------------------------------------------ *)
(** ** Least and greatest of a series *)

Section FirstMin.

Context {A : Type} (key : A -> float).

Lemma fold_first_min_in (xs : list A) :
  forall b, In (fold_left (Query.first_min key) xs b) (b :: xs).
Proof.
  induction xs as [|a xs IH]; intros b; simpl; auto.
  destruct (IH (Query.first_min key b a)) as [H|H]; auto.
  unfold Query.first_min in H at 1.
  destruct (ltb (key a) (key b)); auto.
Qed.

Lemma first_min_le (b a : A) :
  is_nan (key a) = false -> is_nan (key b) = false ->
  leb (key (Query.first_min key b a)) (key b) = true /\
  leb (key (Query.first_min key b a)) (key a) = true.
Proof.
  intros Ha Hb; unfold Query.first_min.
  destruct (ltb (key a) (key b)) eqn:E; split.
  - now apply ltb_leb.
  - now apply leb_refl.
  - now apply leb_refl.
  - now apply ltb_false_leb.
Qed.

Lemma fold_first_min_le (xs : list A) :
  forall b,
    (forall x, In x (b :: xs) -> is_nan (key x) = false) ->
    forall x, In x (b :: xs) ->
              leb (key (fold_left (Query.first_min key) xs b)) (key x) = true.
Proof.
  induction xs as [|a xs IH]; intros b Hn x Hx; simpl.
  - destruct Hx as [<-|[]]. apply leb_refl, Hn; simpl; auto.
  - destruct (first_min_le b a) as [Hb Ha]; try (apply Hn; simpl; auto).
    assert (Hn' : forall y, In y (Query.first_min key b a :: xs) ->
                            is_nan (key y) = false).
    { intros y [<-|Hy]; [ | apply Hn; simpl; auto ].
      unfold Query.first_min; destruct (ltb (key a) (key b)); apply Hn; simpl; auto. }
    destruct Hx as [<-|[<-|Hx]].
    + eapply leb_trans; [ apply (IH _ Hn'); simpl; auto | exact Hb ].
    + eapply leb_trans; [ apply (IH _ Hn'); simpl; auto | exact Ha ].
    + apply (IH _ Hn'); simpl; auto.
Qed.

Lemma fold_first_max_in (xs : list A) :
  forall b, In (fold_left (Query.first_max key) xs b) (b :: xs).
Proof.
  induction xs as [|a xs IH]; intros b; simpl; auto.
  destruct (IH (Query.first_max key b a)) as [H|H]; auto.
  unfold Query.first_max in H at 1.
  destruct (ltb (key b) (key a)); auto.
Qed.

Lemma first_max_ge (b a : A) :
  is_nan (key a) = false -> is_nan (key b) = false ->
  leb (key b) (key (Query.first_max key b a)) = true /\
  leb (key a) (key (Query.first_max key b a)) = true.
Proof.
  intros Ha Hb; unfold Query.first_max.
  destruct (ltb (key b) (key a)) eqn:E; split.
  - now apply ltb_leb.
  - now apply leb_refl.
  - now apply leb_refl.
  - now apply ltb_false_leb.
Qed.

Lemma fold_first_max_ge (xs : list A) :
  forall b,
    (forall x, In x (b :: xs) -> is_nan (key x) = false) ->
    forall x, In x (b :: xs) ->
              leb (key x) (key (fold_left (Query.first_max key) xs b)) = true.
Proof.
  induction xs as [|a xs IH]; intros b Hn x Hx; simpl.
  - destruct Hx as [<-|[]]. apply leb_refl, Hn; simpl; auto.
  - destruct (first_max_ge b a) as [Hb Ha]; try (apply Hn; simpl; auto).
    assert (Hn' : forall y, In y (Query.first_max key b a :: xs) ->
                            is_nan (key y) = false).
    { intros y [<-|Hy]; [ | apply Hn; simpl; auto ].
      unfold Query.first_max; destruct (ltb (key b) (key a)); apply Hn; simpl; auto. }
    destruct Hx as [<-|[<-|Hx]].
    + eapply leb_trans; [ exact Hb | apply (IH _ Hn'); simpl; auto ].
    + eapply leb_trans; [ exact Ha | apply (IH _ Hn'); simpl; auto ].
    + apply (IH _ Hn'); simpl; auto.
Qed.

End FirstMin.

Section GroupMin.

Import Query.



End GroupMin.

(* ------------------------------------------------------------------ *)
(** ** Best performance and summary statistics *)

Section Aggregates.

Import Query.

Lemma has_time_not_nan (r : row) : has_time r = true -> is_nan (Time_s r) = false.
Proof. unfold has_time; apply negb_true_iff. Qed.

(** C5.  When some record has a time, the best performance is a record of
    the set that has a time, and no record with a time is faster; a record
    without a time is never chosen.  When no record has a time, the result
    is the report that all results are without a time. *)
Theorem best_performance_spec (chart_data : list row) :
  ((exists r, In r chart_data /\ has_time r = true) ->
   exists b,
     best_performance chart_data = BestRow b /\
     In b chart_data /\ has_time b = true /\
     forall r, In r chart_data -> has_time r = true ->
               leb (Time_s b) (Time_s r) = true) /\
  ((forall r, In r chart_data -> has_time r = false) ->
   best_performance chart_data = AllNoTime).
Proof.
  unfold best_performance; split.
  - intros (r0 & Hr0 & Ht0).
    assert (H0 : In r0 (filter has_time chart_data)) by (apply filter_In; auto).
    destruct (filter has_time chart_data) as [|x rest] eqn:E; [ destruct H0 | ].
    assert (Hall : forall y, In y (x :: rest) -> is_nan (Time_s y) = false).
    { intros y Hy; rewrite <- E in Hy; apply filter_In in Hy.
      now apply has_time_not_nan. }
    pose proof (fold_first_min_in Time_s rest x) as Hin.
    exists (fold_left (first_min Time_s) rest x); repeat split.
    + rewrite <- E in Hin; apply filter_In in Hin; tauto.
    + rewrite <- E in Hin; apply filter_In in Hin; tauto.
    + intros r Hr Ht.
      apply (fold_first_min_le Time_s rest x Hall).
      rewrite <- E; apply filter_In; auto.
  - intros Hnone.
    destruct (filter has_time chart_data) as [|x rest] eqn:E; auto.
    assert (Hx : In x (filter has_time chart_data)) by (rewrite E; simpl; auto).
    apply filter_In in Hx; destruct Hx as [Hx Ht].
    rewrite (Hnone x Hx) in Ht; discriminate.
Qed.

Lemma best_performance_spec_witness :
  exists b,
    best_performance Scenario.ann_lee = BestRow b /\
    In b Scenario.ann_lee /\ has_time b = true /\
    forall r, In r Scenario.ann_lee -> has_time r = true ->
              leb (Time_s b) (Time_s r) = true.
Proof.
  apply (proj1 (best_performance_spec Scenario.ann_lee)).
  eexists; split; [ left; reflexivity | reflexivity ].
Defined.

(** The best time of the three results is sixty seconds. *)
Example best_performance_ann_lee :
  match best_performance Scenario.ann_lee with
  | BestRow b => Time b = Some "1:00.00" /\ Time_s b = of_Z 60
  | AllNoTime => False
  end.
Proof. vm_compute; split; reflexivity. Qed.

Variable series_sum : list float -> float.

(** C6, amended.  The count that the statistics show is the count of all
    records of the set, those without a time included.  The count of the
    records with a time decides what else is shown: with two or more, the
    least and the greatest of their times, the greatest minus the least as
    improvement, and their mean; with none or one, nothing else. *)
Theorem summary_spec (chart_data : list row) :
  let valid := map Time_s (filter has_time chart_data) in
  valid_count chart_data = List.length valid /\
  shown_count (summary series_sum chart_data) = List.length chart_data /\
  ((2 <= valid_count chart_data)%nat ->
   exists lo hi,
     summary series_sum chart_data =
     Full lo hi (sub hi lo) (series_mean series_sum valid) (List.length chart_data) /\
     In lo valid /\ In hi valid /\
     forall v, In v valid -> leb lo v = true /\ leb v hi = true) /\
  ((valid_count chart_data < 2)%nat ->
   summary series_sum chart_data = CountOnly (List.length chart_data)).
Proof.
  intros valid.
  assert (Hc : valid_count chart_data = List.length valid)
    by (unfold valid_count, valid; now rewrite length_map).
  assert (Hall : forall y, In y valid -> is_nan ((fun w : float => w) y) = false).
  { intros y Hy; unfold valid in Hy; apply in_map_iff in Hy.
    destruct Hy as (r & <- & Hr); apply filter_In in Hr.
    now apply has_time_not_nan. }
  unfold summary; fold valid.
  split; [ exact Hc | ].
  split; [ destruct valid as [|x [|y ys]]; reflexivity | ].
  rewrite Hc; split.
  - intros Hlen.
    destruct valid as [|x [|y ys]]; simpl in Hlen; try lia.
    exists (series_min x (y :: ys)), (series_max x (y :: ys)).
    split; [ reflexivity | ].
    split; [ apply (fold_first_min_in (fun w : float => w)) | ].
    split; [ apply (fold_first_max_in (fun w : float => w)) | ].
    intros v Hv; split.
    + apply (fold_first_min_le (fun w : float => w) (y :: ys) x Hall v Hv).
    + apply (fold_first_max_ge (fun w : float => w) (y :: ys) x Hall v Hv).
  - intros Hlen.
    destruct valid as [|x [|y ys]]; simpl in Hlen; try lia; reflexivity.
Qed.

End Aggregates.

Lemma summary_spec_witness :
  exists lo hi,
    Query.summary Scenario.left_sum Scenario.ann_lee =
    Query.Full lo hi (sub hi lo)
      (Query.series_mean Scenario.left_sum
         (map Time_s (filter Query.has_time Scenario.ann_lee))) 3 /\
    In lo (map Time_s (filter Query.has_time Scenario.ann_lee)) /\
    In hi (map Time_s (filter Query.has_time Scenario.ann_lee)) /\
    forall v, In v (map Time_s (filter Query.has_time Scenario.ann_lee)) ->
              leb lo v = true /\ leb v hi = true.
Proof.
  destruct (summary_spec Scenario.left_sum Scenario.ann_lee) as (_ & _ & H & _).
  exact (H (le_n 2)).
Defined.

(** The three results: from 60 to 65 seconds, an improvement of 5, a mean of
    62.5, and a count of three. *)
Example summary_ann_lee :
  Query.summary Scenario.left_sum Scenario.ann_lee =
  Query.Full (of_Z 60) (of_Z 65) (of_Z 5)
    (S754_finite false 8796093022208000 (-47)) 3.
Proof. vm_compute; reflexivity. Qed.

(** C6 as it is written fails on three results of which one is a
    disqualification: two records have a time, and the count shown is
    three. *)
Lemma summary_count_counterexample :
  Query.valid_count Scenario.ann_lee = 2%nat /\
  Query.shown_count (Query.summary Scenario.left_sum Scenario.ann_lee) = 3%nat /\
  Query.shown_count (Query.summary Scenario.left_sum Scenario.ann_lee) <>
  Query.valid_count Scenario.ann_lee.
Proof. repeat split; discriminate. Qed.

(* ------------------------------------------------------------------ *)
(** ** Sorting and first occurrences *)

Section SortedUnique.

Import PyStr.

Lemma insert_perm (t : string) (l : list string) : Permutation (t :: l) (insert t l).
Proof.
  induction l as [|u us IH]; simpl; auto.
  destruct (String.leb t u); auto.
  eapply perm_trans; [ apply perm_swap | ]. now apply perm_skip.
Qed.

Lemma sorted_perm (l : list string) : Permutation l (sorted l).
Proof.
  induction l as [|t ts IH]; simpl; auto.
  eapply perm_trans; [ apply perm_skip, IH | apply insert_perm ].
Qed.

Lemma sorted_in (l : list string) (x : string) : In x (sorted l) <-> In x l.
Proof.
  split; apply Permutation_in;
    [ apply Permutation_sym | ]; apply sorted_perm.
Qed.

Lemma unique_in (l : list string) (x : string) : In x (Frame.unique l) <-> In x l.
Proof.
  induction l as [|s ss IH]; simpl; [ tauto | ].
  rewrite filter_In, IH.
  destruct (String.eqb s x) eqn:E; simpl.
  - apply String.eqb_eq in E; tauto.
  - apply String.eqb_neq in E; split; [ tauto | ].
    intros [H|H]; [ tauto | auto ].
Qed.

Lemma unique_NoDup (l : list string) : NoDup (Frame.unique l).
Proof.
  induction l as [|s ss IH]; simpl; constructor.
  - rewrite filter_In. intros [_ H].
    now rewrite String.eqb_refl in H.
  - now apply NoDup_filter.
Qed.

End SortedUnique.

(* ------------------------------------------------------------------ *)
(** ** The event comparison *)

Section EventComparison.

Import Query.

Lemma group_in (k : string) (df : list row) (r : row) :
  In r (group k df) <-> In r df /\ Event_Type r = k.
Proof. unfold group; rewrite filter_In, String.eqb_eq; tauto. Qed.

Lemma group_keys_in (df : list row) (k : string) :
  In k (group_keys df) <-> exists r, In r df /\ Event_Type r = k.
Proof.
  unfold group_keys; rewrite sorted_in, unique_in, in_map_iff.
  split; intros (r & H1 & H2); exists r; tauto.
Qed.

Lemma comparison_keys (df : list row) :
  map comp_Event_Type (event_comparison df) = group_keys df.
Proof.
  unfold event_comparison; rewrite map_map; simpl; apply map_id.
Qed.

(** A rank that [float] refuses counts as no rank. *)
Lemma rank_to_num_not_numeric (s : string) :
  raises (py_float s) = true -> rank_to_num (Some s) = nan.
Proof. unfold rank_to_num; destruct (py_float s); [ discriminate | reflexivity ]. Qed.



(** The three results give one row: best time 60 seconds, three records
    counted, no rank. *)
Example event_comparison_ann_lee :
  event_comparison Scenario.ann_lee = [ Scenario.ann_lee_comparison ].
Proof. vm_compute; reflexivity. Qed.


End EventComparison.

(* ------------------------------------------------------------------ *)
(** ** Name matching *)

Section NameOrder.

Import PyStr.

Lemma ascii_compare_refl (c : ascii) : Ascii.compare c c = Eq.
Proof. unfold Ascii.compare; apply N.compare_refl. Qed.

Lemma string_leb_trans (a : string) :
  forall b c, String.leb a b = true -> String.leb b c = true -> String.leb a c = true.
Proof.
  unfold String.leb.
  induction a as [|x a IH]; intros [|y b] [|z c]; simpl; try discriminate; auto.
  unfold Ascii.compare.
  destruct (N.compare_spec (N_of_ascii x) (N_of_ascii y)) as [E1|L1|G1];
    try discriminate;
    destruct (N.compare_spec (N_of_ascii y) (N_of_ascii z)) as [E2|L2|G2];
    try discriminate; intros H1 H2.
  - rewrite E1, E2, N.compare_refl. now apply (IH b c).
  - rewrite E1. apply N.compare_lt_iff in L2. now rewrite L2.
  - rewrite <- E2. apply N.compare_lt_iff in L1. now rewrite L1.
  - assert (L : (N_of_ascii x < N_of_ascii z)%N) by lia.
    apply N.compare_lt_iff in L. now rewrite L.
Qed.

Lemma string_leb_false (a b : string) : String.leb a b = false -> String.leb b a = true.
Proof. intros H; destruct (String.leb_total a b) as [E|E]; congruence. Qed.

Lemma insert_insert (l : list string) :
  forall a b, insert a (insert b l) = insert b (insert a l).
Proof.
  induction l as [|u us IH]; intros a b; simpl.
  - destruct (String.leb a b) eqn:Eab, (String.leb b a) eqn:Eba; auto.
    + now rewrite (String.leb_antisym a b Eab Eba).
    + apply string_leb_false in Eab; congruence.
  - destruct (String.leb b u) eqn:Ebu, (String.leb a u) eqn:Eau; simpl.
    + destruct (String.leb a b) eqn:Eab, (String.leb b a) eqn:Eba;
        simpl; rewrite ?Ebu, ?Eau; auto.
      * now rewrite (String.leb_antisym a b Eab Eba).
      * apply string_leb_false in Eab; congruence.
    + assert (Eab : String.leb a b = false).
      { destruct (String.leb a b) eqn:E; auto.
        rewrite (string_leb_trans a b u E Ebu) in Eau; discriminate. }
      rewrite Eab, Ebu; simpl. now rewrite Eau.
    + assert (Eba : String.leb b a = false).
      { destruct (String.leb b a) eqn:E; auto.
        rewrite (string_leb_trans b a u E Eau) in Ebu; discriminate. }
      rewrite Eba, Eau; simpl. now rewrite Ebu.
    + rewrite Eau, Ebu. now rewrite IH.
Qed.

(** The sorted list depends on the elements only, not on their order. *)
Lemma sorted_permutation (l1 l2 : list string) :
  Permutation l1 l2 -> sorted l1 = sorted l2.
Proof.
  induction 1 as [|x l l' _ IH|x y l|l l' l'' _ IH1 _ IH2]; simpl.
  - reflexivity.
  - now rewrite IH.
  - apply insert_insert.
  - congruence.
Qed.

Lemma lower_upper_char (c : ascii) : lower_char (upper_char c) = lower_char c.
Proof. destruct c as [[] [] [] [] [] [] [] []]; reflexivity. Qed.

Lemma lower_lower_char (c : ascii) : lower_char (lower_char c) = lower_char c.
Proof. destruct c as [[] [] [] [] [] [] [] []]; reflexivity. Qed.

Lemma lower_upper (s : string) : lower (upper s) = lower s.
Proof.
  induction s as [|c s IH]; simpl; auto.
  unfold lower, upper in *; simpl. now rewrite lower_upper_char, IH.
Qed.

Lemma lower_lower (s : string) : lower (lower s) = lower s.
Proof.
  induction s as [|c s IH]; simpl; auto.
  unfold lower in *; simpl. now rewrite lower_lower_char, IH.
Qed.

End NameOrder.

Section Tokens.

Import PyStr NameSpec.

Lemma split_cons (c : ascii) (r : string) :
  split (String c r) =
  if isspace c then split r
  else
    match r with
    | EmptyString => [String c EmptyString]
    | String c' _ =>
        if isspace c' then String c EmptyString :: split r
        else
          match split r with
          | t :: ts => String c t :: ts
          | [] => [String c EmptyString]
          end
    end.
Proof. destruct r; reflexivity. Qed.

Lemma join_cons2 (sep t u : string) (us : list string) :
  join sep (t :: u :: us) = t ++ sep ++ join sep (u :: us).
Proof. reflexivity. Qed.

Lemma token_cons (t : string) :
  token t = true <-> exists c r, t = String c r /\ App.no_space (String c r) = true.
Proof.
unfold token. destruct t as [|c r].
- split; [ discriminate | intros (c & r & H & _); discriminate ].
- change (String.eqb (String c r) "") with false. cbn [negb andb]. split.
  + intros H; exists c, r; auto.
  + intros (c' & r' & E & H); now rewrite E.
Qed.

Lemma no_space_cons (c : ascii) (r : string) :
  App.no_space (String c r) = true <-> isspace c = false /\ App.no_space r = true.
Proof. cbn [App.no_space]. now rewrite andb_true_iff, negb_true_iff. Qed.

Lemma split_tokens (s : string) : forall t, In t (split s) -> token t = true.
Proof.
induction s as [|c r IH]; [ intros t [] | ].
intros t. rewrite split_cons.
destruct (isspace c) eqn:Ec; [ apply IH | ].
assert (H1 : token (String c EmptyString) = true).
{ apply token_cons. exists c, EmptyString. split; auto.
  apply no_space_cons; auto. }
destruct r as [|c' r'].
- intros [<-|[]]; exact H1.
- destruct (isspace c') eqn:Ec'.
  + intros [<-|H]; [ exact H1 | now apply IH ].
  + destruct (split (String c' r')) as [|u us] eqn:Es.
    * intros [<-|[]]; exact H1.
    * intros [<-|H]; [ | apply IH; now right ].
      assert (Hu : token u = true) by (apply IH; now left).
      apply token_cons in Hu. destruct Hu as (d & w & -> & Hu).
      apply token_cons. exists c, (String d w). split; auto.
      apply no_space_cons; auto.
Qed.

Lemma split_run (r : string) :
  forall c, App.no_space (String c r) = true -> split (String c r) = [String c r].
Proof.
induction r as [|c' r' IH]; intros c H; apply no_space_cons in H; destruct H as [Hc Hr];
  rewrite split_cons, Hc; [ reflexivity | ].
pose proof (proj1 (no_space_cons c' r') Hr) as [Hc' _].
now rewrite Hc', (IH c' Hr).
Qed.

Lemma split_run_app (rest r : string) :
  forall c, App.no_space (String c r) = true ->
    split (String c r ++ String " " rest) = String c r :: split rest.
Proof.
induction r as [|c' r' IH]; intros c H; apply no_space_cons in H; destruct H as [Hc Hr].
- change (String c "" ++ String " " rest) with (String c (String " " rest)).
  rewrite split_cons, Hc. change (isspace " ") with true. cbv iota.
  reflexivity.
- change (String c (String c' r') ++ String " " rest)
    with (String c (String c' r' ++ String " " rest)).
  rewrite split_cons, Hc.
  change (String c' r' ++ String " " rest) with (String c' (r' ++ String " " rest)).
  pose proof (proj1 (no_space_cons c' r') Hr) as [Hc' _]. rewrite Hc'.
  change (String c' (r' ++ String " " rest)) with (String c' r' ++ String " " rest).
  now rewrite (IH c' Hr).
Qed.

Lemma no_space_contains (t : string) :
  App.no_space t = true -> contains " " t = false.
Proof.
induction t as [|c r IH]; [ reflexivity | ].
intros H; apply no_space_cons in H; destruct H as [Hc Hr].
cbn [contains]. destruct (Ascii.eqb " " c) eqn:E; [ | now apply IH ].
apply Ascii.eqb_eq in E; subst c. discriminate Hc.
Qed.

Lemma contains_app (t rest : string) : contains " " (t ++ String " " rest) = true.
Proof.
induction t as [|c r IH]; [ reflexivity | ].
change (String c r ++ String " " rest) with (String c (r ++ String " " rest)).
cbn [contains]. rewrite IH. now destruct (Ascii.eqb " " c).
Qed.

Lemma split1_app (t rest : string) :
  contains " " t = false -> split1 " " (t ++ String " " rest) = (t, rest).
Proof.
induction t as [|c r IH]; [ reflexivity | ].
cbn [contains]. destruct (Ascii.eqb " " c) eqn:E; [ discriminate | ].
intros H.
change (String c r ++ String " " rest) with (String c (r ++ String " " rest)).
cbn [split1]. now rewrite E, (IH H).
Qed.

Let tokens (l : list string) : Prop := Forall (fun t => token t = true) l.

Lemma token_no_space (t : string) : token t = true -> App.no_space t = true.
Proof. unfold token; intros H; now apply andb_true_iff in H. Qed.

Lemma join_inj (l : list string) :
  forall l', tokens l -> tokens l' -> join " " l = join " " l' -> l = l'.
Proof.
assert (Hne : forall t ts, token t = true -> join " " (t :: ts) <> "").
{ intros t ts Ht. apply token_cons in Ht. destruct Ht as (c & r & -> & _).
  destruct ts; [ discriminate | rewrite join_cons2; discriminate ]. }
assert (Hone : forall t t' u us, token t = true ->
          t <> join " " (t' :: u :: us)).
{ intros t t' u us Ht E.
  apply token_no_space, no_space_contains in Ht.
  rewrite E, join_cons2 in Ht.
  change (" " ++ join " " (u :: us)) with (String " " (join " " (u :: us))) in Ht.
  rewrite contains_app in Ht. discriminate. }
induction l as [|t ts IH]; intros [|t' ts'] Hl Hl' E; auto.
- inversion Hl'; subst. symmetry in E. now apply Hne in E.
- inversion Hl; subst. now apply Hne in E.
- inversion Hl as [|? ? Ht Hts]; inversion Hl' as [|? ? Ht' Hts']; subst.
  destruct ts as [|u us], ts' as [|u' us'].
  + simpl in E. now subst.
  + exfalso. apply (Hone t t' u' us' Ht). exact E.
  + exfalso. apply (Hone t' t u us Ht'). now symmetry.
  + rewrite !join_cons2 in E.
    change (" " ++ join " " (u :: us)) with (String " " (join " " (u :: us))) in E.
    change (" " ++ join " " (u' :: us')) with (String " " (join " " (u' :: us'))) in E.
    apply (f_equal (split1 " ")) in E.
    rewrite !split1_app in E
      by (apply no_space_contains, token_no_space; assumption).
    injection E as -> E. f_equal. now apply IH.
Qed.

Lemma sorted_tokens (l : list string) : tokens l -> tokens (sorted l).
Proof.
unfold tokens; rewrite !Forall_forall. intros H t Ht. apply H.
now apply (proj1 (sorted_in l t)).
Qed.

Lemma split_all_tokens (s : string) : tokens (split s).
Proof. apply Forall_forall. apply split_tokens. Qed.

Lemma sorted_eq_perm (l1 l2 : list string) :
  sorted l1 = sorted l2 -> Permutation l1 l2.
Proof.
intros E. eapply perm_trans; [ apply sorted_perm | ].
rewrite E. apply Permutation_sym, sorted_perm.
Qed.

Lemma name_key_iff (a b : string) :
  Query.name_key a = Query.name_key b <->
  Permutation (split (lower a)) (split (lower b)).
Proof.
unfold Query.name_key. split.
- intros E. apply sorted_eq_perm.
  apply join_inj; auto; apply sorted_tokens, split_all_tokens.
- intros H. now rewrite (sorted_permutation _ _ H).
Qed.

Lemma split_join (l : list string) : tokens l -> split (join " " l) = l.
Proof.
induction 1 as [|t ts Ht Hts IH]; [ reflexivity | ].
apply token_cons in Ht. destruct Ht as (c & r & -> & Ht).
destruct ts as [|u us].
- now apply split_run.
- rewrite join_cons2.
  change (" " ++ join " " (u :: us)) with (String " " (join " " (u :: us))).
  rewrite (split_run_app _ r c Ht). now rewrite IH.
Qed.

Lemma str_map_app (f : ascii -> ascii) (a b : string) :
  map f (a ++ b) = map f a ++ map f b.
Proof. induction a as [|c r IH]; simpl; congruence. Qed.

Lemma lower_no_capital (s : string) : no_capital s = true -> lower s = s.
Proof.
unfold lower. induction s as [|c r IH]; [ reflexivity | ].
cbn [no_capital map]. intros H; apply andb_true_iff in H. destruct H as [Hc Hr].
apply negb_true_iff in Hc. rewrite (IH Hr). unfold lower_char. now rewrite Hc.
Qed.

Lemma lower_join (l : list string) :
  Forall (fun t => no_capital t = true) l -> lower (join " " l) = join " " l.
Proof.
induction 1 as [|t ts Ht Hts IH]; [ reflexivity | ].
destruct ts as [|u us]; [ now apply lower_no_capital | ].
rewrite join_cons2. unfold lower in *. rewrite !str_map_app.
fold (lower t). rewrite (lower_no_capital t Ht). now rewrite IH.
Qed.

Lemma plain_tokens (l : list string) :
  Forall (fun t => plain t = true) l ->
  tokens l /\ Forall (fun t => no_capital t = true) l.
Proof.
unfold tokens, plain. rewrite !Forall_forall. intros H; split; intros t Ht;
  specialize (H t Ht); apply andb_true_iff in H; tauto.
Qed.

End Tokens.

Section SwimmerFilter.

Import PyStr Query.

(** C7.  On ASCII text, the domain of the model of [str].  A record passes
    the swimmer filter exactly when its name and the query have the same
    key: the lower-cased text, split at white space, the tokens sorted and
    joined.  The key does not depend on the case of the letters nor on the
    order of the tokens; the queries [Smith John] and [John Smith] give the
    same rows of every table.  Two texts have the same key exactly when
    their lower-cased tokens are the same up to their order, so that a
    record passes exactly when the lower-cased tokens of its name are those
    of the query in some order, and a name with other tokens is left out.
    The tokens of a text are not empty and hold no white space; a text made
    of lower-case tokens with one space between them has exactly these
    tokens, and two such texts match exactly when their tokens are the same
    up to order.  The entry for all swimmers keeps every row. *)
Theorem swimmer_filter_spec :
  (forall (q : string) (df : list row) (r : row),
      q <> "All Swimmers" ->
      (In r (by_swimmer q df) <-> In r df /\ name_key (Name r) = name_key q)) /\
  (forall a b : string, lower a = lower b -> name_key a = name_key b) /\
  (forall a : string, name_key (upper a) = name_key a /\
                      name_key (lower a) = name_key a) /\
  (forall a b : string,
      Permutation (split (lower a)) (split (lower b)) -> name_key a = name_key b) /\
  (forall df : list row, by_swimmer "Smith John" df = by_swimmer "John Smith" df) /\
  (forall a b : string,
      name_key a = name_key b <-> Permutation (split (lower a)) (split (lower b))) /\
  (forall (q : string) (df : list row) (r : row),
      q <> "All Swimmers" ->
      (In r (by_swimmer q df) <->
       In r df /\ Permutation (split (lower (Name r))) (split (lower q)))) /\
  (forall (s t : string), In t (split s) -> NameSpec.token t = true) /\
  (forall l1 l2 : list string,
      Forall (fun t => NameSpec.plain t = true) l1 ->
      Forall (fun t => NameSpec.plain t = true) l2 ->
      split (lower (join " " l1)) = l1 /\
      (name_key (join " " l1) = name_key (join " " l2) <-> Permutation l1 l2)) /\
  (forall df : list row, by_swimmer "All Swimmers" df = df).
Proof.
  assert (Hmem : forall (q : string) (df : list row) (r : row),
             q <> "All Swimmers" ->
             (In r (by_swimmer q df) <-> In r df /\ name_key (Name r) = name_key q)).
  { intros q df r Hq; unfold by_swimmer.
    apply String.eqb_neq in Hq; rewrite Hq.
    now rewrite filter_In, String.eqb_eq. }
  assert (Hplain : forall l, Forall (fun t => NameSpec.plain t = true) l ->
             split (lower (join " " l)) = l).
  { intros l Hl. apply plain_tokens in Hl. destruct Hl as [Ht Hc].
    rewrite (lower_join l Hc). now apply split_join. }
  split; [ exact Hmem | ].
  split; [ intros a b H; unfold name_key; now rewrite H | ].
  split; [ intros a; unfold name_key; now rewrite lower_upper, lower_lower | ].
  split; [ intros a b H; unfold name_key; now rewrite (sorted_permutation _ _ H) | ].
  split; [ intros df; reflexivity | ].
  split; [ exact name_key_iff | ].
  split; [ intros q df r Hq; rewrite (Hmem q df r Hq); now rewrite name_key_iff | ].
  split; [ exact split_tokens | ].
  split; [ | intros df; reflexivity ].
  intros l1 l2 H1 H2. split; [ now apply Hplain | ].
  rewrite name_key_iff. now rewrite (Hplain l1 H1), (Hplain l2 H2).
Qed.

Lemma swimmer_filter_spec_witness :
  name_key "Smith John" = name_key "John Smith" /\
  (In Scenario.ann_lee_first (by_swimmer "lee ANN" Scenario.ann_lee) <->
   In Scenario.ann_lee_first Scenario.ann_lee /\
   name_key (Name Scenario.ann_lee_first) = name_key "lee ANN") /\
  ~ In Scenario.ann_lee_first (by_swimmer "Jane Doe" Scenario.ann_lee).
Proof.
  destruct swimmer_filter_spec as (H1 & _ & _ & H4 & _ & _ & H7 & _).
  split; [ | split ].
  - apply H4. apply perm_swap.
  - apply H1. discriminate.
  - intros Hin.
    apply (H7 "Jane Doe" Scenario.ann_lee Scenario.ann_lee_first) in Hin;
      [ | discriminate ].
    destruct Hin as [_ Hp].
    assert (Hann : In "ann" (split (lower "Jane Doe"))).
    { apply (Permutation_in _ Hp). left; reflexivity. }
    destruct Hann as [E|[E|[]]]; discriminate E.
Defined.

End SwimmerFilter.

(* ------------------------------------------------------------------ *)
(** ** The date filter *)

Section DateFilter.

Import Query.

Lemma in_range_iff (start_date end_date : Z) (r : row) :
  in_range start_date end_date r = true <->
  exists d, Meet_Date r = Some d /\ start_date <= d <= end_date.
Proof.
  unfold in_range; destruct (Meet_Date r) as [d|].
  - rewrite andb_true_iff, !Z.leb_le. split.
    + intros H; exists d; auto.
    + intros (d' & E & H); inversion E; subst; auto.
  - split; [ discriminate | intros (d & E & _); discriminate ].
Qed.

(** C8.  When the date filter runs, with the days [d0] and [d1] chosen, the
    set becomes its rows whose date is at or after the midnight of [d0] and
    at or before the midnight of [d1], in their order; a row with a null
    date is not among them. *)
Theorem date_filter_spec (d0 d1 : Z) (df : list row) :
  date_filter_active (Some [d0; d1]) df = true ->
  by_date (Some [d0; d1]) df = filter (in_range (midnight d0) (midnight d1)) df /\
  (forall r, In r (by_date (Some [d0; d1]) df) <->
             In r df /\
             exists d, Meet_Date r = Some d /\ midnight d0 <= d <= midnight d1) /\
  (forall r, In r (by_date (Some [d0; d1]) df) -> Meet_Date r <> None).
Proof.
  unfold date_filter_active, by_date; intros H.
  apply negb_true_iff in H; rewrite H.
  split; [ reflexivity | ].
  split.
  - intros r; now rewrite filter_In, in_range_iff.
  - intros r Hr; apply filter_In in Hr; destruct Hr as [_ Hr].
    apply in_range_iff in Hr; destruct Hr as (d & E & _); congruence.
Qed.

(** A date without a time of day is kept exactly when its day is from [d0]
    to [d1], both included. *)
Lemma in_range_midnight (d0 d1 day : Z) (r : row) :
  Meet_Date r = Some (midnight day) ->
  (in_range (midnight d0) (midnight d1) r = true <-> d0 <= day <= d1).
Proof.
  intros E; rewrite in_range_iff; unfold midnight in *; split.
  - intros (d & E' & H); rewrite E in E'; inversion E'; subst; lia.
  - intros H; exists (day * 86400000000000); split; [ exact E | lia ].
Qed.

End DateFilter.

Lemma date_filter_spec_witness :
  Query.by_date (Some [10; 20]) DateScenario.four =
  filter (Query.in_range (Query.midnight 10) (Query.midnight 20)) DateScenario.four.
Proof.
  exact (proj1 (date_filter_spec 10 20 DateScenario.four eq_refl)).
Defined.

(** Of the results on the days 10, 20 and 30 and the one without a date, the
    range from 10 to 20 keeps the first two. *)
Example date_filter_four :
  map Meet_Date (Query.by_date (Some [10; 20]) DateScenario.four) =
  [Some (Query.midnight 10); Some (Query.midnight 20)].
Proof. vm_compute; reflexivity. Qed.

(* ------------------------------------------------------------------ *)
(** ** Loading: names *)

Section LoadNames.

Import Frame.

Variable to_datetime : cell -> timestamp.

Lemma drop_duplicates_in (df : list row) (x : row) :
  In x (drop_duplicates df) <-> In x df.
Proof.
  induction df as [|r rs IH]; simpl; [ tauto | ].
  rewrite filter_In, IH.
  destruct (row_eq_dec r x) as [E|E]; split; tauto.
Qed.

Lemma load_in (combined : list Raw.row) (x : row) :
  In x (load to_datetime combined) <->
  (exists r, In r combined /\ clean to_datetime r = x) /\ Name x <> "".
Proof.
  unfold load; rewrite drop_duplicates_in, filter_In, in_map_iff.
  assert (H : (0 <? String.length (Name x))%nat = true <-> Name x <> "").
  { destruct (Name x); simpl; split; try discriminate; auto. }
  rewrite H; split; intros [(r & H1 & H2) H3]; split; auto; exists r; auto.
Qed.

(** C9.  A record whose name cell is missing stays in the working set under
    the name [nan], of length three: it is a row of the loaded table, [nan]
    is among the swimmers that are listed, and the query [nan] finds it.  A
    record whose name is empty or white space only is not in the working
    set, and no row of it has an empty name. *)
Theorem missing_name_kept (combined : list Raw.row) :
  (forall r : Raw.row,
      In r combined -> Raw.Name r = None ->
      Name (clean to_datetime r) = "nan" /\
      String.length (Name (clean to_datetime r)) = 3%nat /\
      In (clean to_datetime r) (load to_datetime combined) /\
      In "nan" (get_available_swimmers (load to_datetime combined)) /\
      In (clean to_datetime r) (Query.by_swimmer "nan" (load to_datetime combined))) /\
  (forall (r : Raw.row) (s : string),
      Raw.Name r = Some s -> PyStr.strip s = "" ->
      ~ In (clean to_datetime r) (load to_datetime combined)) /\
  (forall x : row, In x (load to_datetime combined) -> Name x <> "").
Proof.
  split; [ | split ].
  - intros r Hr Hn.
    assert (E : Name (clean to_datetime r) = "nan")
      by (simpl; rewrite Hn; reflexivity).
    assert (Hin : In (clean to_datetime r) (load to_datetime combined)).
    { apply load_in; split; [ exists r; auto | rewrite E; discriminate ]. }
    split; [ exact E | ].
    split; [ rewrite E; reflexivity | ].
    split; [ exact Hin | ].
    split.
    + unfold get_available_swimmers.
      rewrite sorted_in, unique_in, filter_In; split; [ | reflexivity ].
      rewrite <- E; now apply in_map.
    + unfold Query.by_swimmer; simpl.
      apply filter_In; split; [ exact Hin | ].
      rewrite E; reflexivity.
  - intros r s Hn Hs Hin.
    apply load_in in Hin; destruct Hin as [_ Hne].
    apply Hne; simpl; rewrite Hn; exact Hs.
  - intros x Hx; apply load_in in Hx; tauto.
Qed.

End LoadNames.

Lemma missing_name_kept_witness :
  Name (Frame.clean Scenario.no_dates NameScenario.unnamed) = "nan" /\
  In (Frame.clean Scenario.no_dates NameScenario.unnamed) NameScenario.loaded /\
  ~ In (Frame.clean Scenario.no_dates NameScenario.blank) NameScenario.loaded.
Proof.
  destruct (missing_name_kept Scenario.no_dates
              [NameScenario.unnamed; NameScenario.blank]) as (H1 & H2 & _).
  destruct (H1 NameScenario.unnamed (or_introl eq_refl) eq_refl) as (E & _ & Hin & _).
  split; [ exact E | ].
  split; [ exact Hin | ].
  exact (H2 NameScenario.blank "   " eq_refl eq_refl).
Defined.

(** Of a result without a name cell and one with a name of blanks, the first
    alone is loaded, under the name [nan]. *)
Example load_names :
  map Name NameScenario.loaded = ["nan"] /\
  Frame.get_available_swimmers NameScenario.loaded = ["nan"].
Proof. vm_compute; split; reflexivity. Qed.

(* ------------------------------------------------------------------ *)
(** ** Trimming and case *)

Section Trimming.

Import PyStr.

Variable p : ascii -> bool.

Let head_kept := App.head_kept p.

Lemma lstrip_head (s : string) : head_kept (lstrip_by p s).
Proof.
unfold head_kept.
induction s as [|c s IH]; simpl; auto.
destruct (p c) eqn:E; simpl; auto.
Qed.

Lemma lstrip_fixed (u : string) : head_kept u -> lstrip_by p u = u.
Proof. unfold head_kept. destruct u as [|c u]; simpl; auto. intros ->; reflexivity. Qed.

Lemma rstrip_head (u : string) : head_kept u -> head_kept (rstrip_by p u).
Proof.
unfold head_kept.
destruct u as [|c u]; simpl; auto. intros H.
destruct (rstrip_by p u); simpl; auto. rewrite H; simpl; auto.
Qed.

Lemma rstrip_idempotent (u : string) : rstrip_by p (rstrip_by p u) = rstrip_by p u.
Proof.
induction u as [|c u IH]; simpl; auto.
destruct (rstrip_by p u) as [|d r] eqn:E.
- destruct (p c) eqn:Ec; simpl; auto. now rewrite Ec.
- simpl in IH |- *. now rewrite IH.
Qed.

Lemma strip_by_idempotent (s : string) : strip_by p (strip_by p s) = strip_by p s.
Proof.
unfold strip_by.
rewrite (lstrip_fixed (rstrip_by p (lstrip_by p s))).
- apply rstrip_idempotent.
- apply rstrip_head, lstrip_head.
Qed.

Variable f : ascii -> ascii.
Hypothesis p_f : forall c, p (f c) = p c.

Lemma lstrip_map (s : string) : lstrip_by p (map f s) = map f (lstrip_by p s).
Proof.
induction s as [|c s IH]; simpl; auto.
rewrite p_f. destruct (p c); auto.
Qed.

Lemma rstrip_map (s : string) : rstrip_by p (map f s) = map f (rstrip_by p s).
Proof.
induction s as [|c s IH]; simpl; auto.
rewrite IH, p_f.
destruct (rstrip_by p s); simpl; auto.
destruct (p c); auto.
Qed.

Lemma strip_by_map (s : string) : strip_by p (map f s) = map f (strip_by p s).
Proof. unfold strip_by; now rewrite lstrip_map, rstrip_map. Qed.

End Trimming.

Section Case.

Import PyStr.

Lemma isspace_upper_char (c : ascii) : isspace (upper_char c) = isspace c.
Proof. destruct c as [[] [] [] [] [] [] [] []]; reflexivity. Qed.

Lemma isspace_lower_char (c : ascii) : isspace (lower_char c) = isspace c.
Proof. destruct c as [[] [] [] [] [] [] [] []]; reflexivity. Qed.

Lemma upper_upper_char (c : ascii) : upper_char (upper_char c) = upper_char c.
Proof. destruct c as [[] [] [] [] [] [] [] []]; reflexivity. Qed.

Lemma upper_lower_char (c : ascii) : upper_char (lower_char c) = upper_char c.
Proof. destruct c as [[] [] [] [] [] [] [] []]; reflexivity. Qed.

Lemma map_map_char (f g h : ascii -> ascii) (s : string) :
  (forall c, f (g c) = h c) -> map f (map g s) = map h s.
Proof. intros H; induction s as [|c s IH]; simpl; congruence. Qed.

Lemma strip_idempotent (s : string) : strip (strip s) = strip s.
Proof. apply strip_by_idempotent. Qed.

Lemma strip_upper (s : string) : strip (upper s) = upper (strip s).
Proof. apply strip_by_map, isspace_upper_char. Qed.

Lemma strip_lower (s : string) : strip (lower s) = lower (strip s).
Proof. apply strip_by_map, isspace_lower_char. Qed.

Lemma normal_strip (t : string) : normal (strip t) = normal t.
Proof. unfold normal; now rewrite strip_idempotent. Qed.

Lemma normal_upper (t : string) : normal (upper t) = normal t.
Proof.
unfold normal. rewrite strip_upper. apply map_map_char, upper_upper_char.
Qed.

Lemma normal_lower (t : string) : normal (lower t) = normal t.
Proof.
unfold normal. rewrite strip_lower. apply map_map_char, upper_lower_char.
Qed.

Lemma parse_time_normal (t u : string) :
  normal t = normal u ->
  parse_time_to_seconds (Some t) = parse_time_to_seconds (Some u).
Proof.
unfold parse_time_to_seconds; fold (normal t); fold (normal u).
now intros ->.
Qed.

(** X1.  The parser does not see the case of the letters of its input, nor white
    space at its ends: a text, the text trimmed, upper-cased or lower-cased
    all give the same seconds or the same null. *)
Theorem parse_time_ignores_case_and_margins (t : string) :
  parse_time_to_seconds (Some (strip t)) = parse_time_to_seconds (Some t) /\
  parse_time_to_seconds (Some (upper t)) = parse_time_to_seconds (Some t) /\
  parse_time_to_seconds (Some (lower t)) = parse_time_to_seconds (Some t).
Proof.
repeat split; apply parse_time_normal;
  [ apply normal_strip | apply normal_upper | apply normal_lower ].
Qed.

End Case.

(* ------------------------------------------------------------------ *)
(** ** What the formatter returns has no white space at its ends *)

Section FormatTrimmed.

Import PyStr.

Lemma no_space_head (u : string) : App.no_space u = true -> App.head_kept isspace u.
Proof.
destruct u as [|c u]; simpl; auto.
intros H; apply andb_true_iff in H; destruct H as [H _].
now apply negb_true_iff in H.
Qed.

Lemma no_space_rstrip (u : string) : App.no_space u = true -> rstrip_by isspace u = u.
Proof.
induction u as [|c u IH]; simpl; auto.
intros H; apply andb_true_iff in H; destruct H as [Hc Hu].
apply negb_true_iff in Hc. rewrite (IH Hu), Hc.
destruct u; reflexivity.
Qed.

Lemma no_space_strip (u : string) : App.no_space u = true -> strip u = u.
Proof.
intros H; unfold strip, strip_by.
rewrite (lstrip_fixed isspace u (no_space_head u H)).
now apply no_space_rstrip.
Qed.

Lemma no_space_app (a b : string) :
  App.no_space a = true -> App.no_space b = true -> App.no_space (a ++ b) = true.
Proof.
induction a as [|c a IH]; simpl; auto.
intros H; apply andb_true_iff in H; destruct H as [Hc Ha].
intros Hb; rewrite Hc; simpl; auto.
Qed.

Lemma isdigit_not_space (c : ascii) : isdigit c = true -> isspace c = false.
Proof. destruct c as [[] [] [] [] [] [] [] []]; try discriminate; reflexivity. Qed.

Lemma all_digits_no_space (s : string) : all_digits s = true -> App.no_space s = true.
Proof.
induction s as [|c s IH]; simpl; auto.
intros H; apply andb_true_iff in H; destruct H as [Hc Hs].
rewrite (isdigit_not_space c Hc); simpl; auto.
Qed.

Lemma fixed_text_no_space (n : nat) (s : string) : fixed_text n s -> App.no_space s = true.
Proof.
intros (ip & d1 & d2 & -> & Ha & _ & H1 & H2).
apply no_space_app; [ now apply all_digits_no_space | ].
simpl. now rewrite (isdigit_not_space d1 H1), (isdigit_not_space d2 H2).
Qed.

Lemma str_of_Z_no_space (z : Z) : App.no_space (str_of_Z z) = true.
Proof.
unfold str_of_Z. destruct (Z.ltb_spec z 0) as [L|L].
- simpl. apply all_digits_no_space, str_of_nonneg_digits. lia.
- apply all_digits_no_space, str_of_nonneg_digits. lia.
Qed.

Lemma body_2f_no_space (x : float) : App.no_space (body_2f x) = true.
Proof.
destruct x as [s|s| |s m e]; try reflexivity.
apply (fixed_text_no_space 1), body_2f_shape; reflexivity.
Qed.

Lemma sign_text_no_space (x : float) : App.no_space (sign_text x) = true.
Proof. unfold sign_text; destruct (sign_of x); reflexivity. Qed.

Lemma format_2f_no_space (x : float) : App.no_space (format_2f x) = true.
Proof.
unfold format_2f. apply no_space_app; [ apply sign_text_no_space | apply body_2f_no_space ].
Qed.

Lemma format_05_2f_no_space (x : float) : App.no_space (format_05_2f x) = true.
Proof.
unfold format_05_2f.
apply no_space_app; [ apply sign_text_no_space | ].
apply no_space_app; [ | apply body_2f_no_space ].
apply all_digits_no_space, zeros_digits.
Qed.

Lemma format_seconds_no_space (s r : string) :
  format_seconds s = Ok r -> App.no_space r = true.
Proof.
unfold format_seconds, bind.
destruct (py_float s) as [sec|e]; [ | discriminate ].
destruct (leb (of_Z 60) sec).
- destruct (to_int (floordiv sec (of_Z 60))) as [m|e]; [ | discriminate ].
  destruct (of_int (m * 60)) as [i|e]; [ | discriminate ].
  intros H; inversion H; subst.
  apply no_space_app; [ apply str_of_Z_no_space | ].
  change (App.no_space (String ":" (format_05_2f (sub sec i))) = true).
  cbn [App.no_space]. rewrite format_05_2f_no_space. reflexivity.
- intros H; inversion H; subst. apply format_2f_no_space.
Qed.

(** X2.  Whatever [format_time] is given, what it returns has no white space at
    either end: trimming the result changes nothing. *)
Theorem format_time_is_trimmed (float_str : float -> string) (x : pyval) :
  strip (format_time float_str x) = format_time float_str x.
Proof.
unfold format_time.
destruct (isna x); [ reflexivity | ].
set (s := strip (py_str float_str x)).
assert (Hs : strip s = s) by apply strip_idempotent.
destruct (mem (upper s) DQ_LIKE || String.eqb (upper s) "N/A")%bool; auto.
destruct (contains ":" s); auto.
destruct (format_seconds s) as [r|e] eqn:E; auto.
apply no_space_strip, (format_seconds_no_space s r E).
Qed.

(** X3.  A value whose trimmed text is a non-finishing marker, in any casing, is
    shown as that trimmed text, and the text that is shown parses to null
    again; each marker of [DQ_LIKE] itself is shown unchanged. *)
Theorem marker_survives_display (float_str : float -> string) (x : pyval) :
  isna x = false ->
  is_marker (py_str float_str x) = true ->
  format_time float_str x = strip (py_str float_str x) /\
  is_marker (format_time float_str x) = true /\
  parse_time_to_seconds (Some (format_time float_str x)) = nan /\
  (In (py_str float_str x) DQ_LIKE -> format_time float_str x = py_str float_str x).
Proof.
intros Hna Hm.
assert (E : format_time float_str x = strip (py_str float_str x)).
{ apply format_time_marker; auto. }
assert (Hm' : is_marker (format_time float_str x) = true).
{ rewrite E. unfold is_marker in *. now rewrite normal_strip. }
split; [ exact E | ]. split; [ exact Hm' | ].
split; [ now apply parse_time_marker | ].
intros Hin; rewrite E.
unfold DQ_LIKE in Hin; simpl in Hin.
repeat (destruct Hin as [<-|Hin]; [ reflexivity | ]). destruct Hin.
Qed.

Lemma marker_survives_display_witness :
  format_time str_62_34 (VStr " dnf ") = "dnf" /\
  parse_time_to_seconds (Some (format_time str_62_34 (VStr " dnf "))) = nan.
Proof.
destruct (marker_survives_display str_62_34 (VStr " dnf ") eq_refl eq_refl)
  as (H1 & _ & H2 & _).
split; [ exact H1 | exact H2 ].
Defined.

End FormatTrimmed.

(* ------------------------------------------------------------------ *)
(** ** The loaded table *)

Section Loaded.

Import Frame.

Lemma filter_all {A : Type} (f : A -> bool) (l : list A) :
  (forall x, In x l -> f x = true) -> filter f l = l.
Proof.
induction l as [|a l IH]; simpl; auto.
intros H. rewrite (H a) by auto. f_equal. apply IH; auto.
Qed.

Lemma drop_duplicates_NoDup (df : list row) : NoDup (drop_duplicates df).
Proof.
induction df as [|r rs IH]; simpl; constructor.
- rewrite filter_In. intros [_ H].
  destruct (row_eq_dec r r); [ discriminate | congruence ].
- now apply NoDup_filter.
Qed.

Lemma drop_duplicates_fixed (df : list row) : NoDup df -> drop_duplicates df = df.
Proof.
induction 1 as [|r rs Hr Hn IH]; simpl; auto.
rewrite IH. f_equal. apply filter_all.
intros x Hx. destruct (row_eq_dec r x); [ subst; contradiction | reflexivity ].
Qed.

Variable to_datetime : cell -> timestamp.

(** X4.  The table that [load_all_swimming_data] returns has no two equal rows, so
    dropping duplicates again changes nothing.  Each of its rows is the
    cleaning of a row that was read; its name is not empty and has no white
    space at its ends, its date is the reading of its date text, and its
    seconds are the parse of its own raw time.  Nothing read gives nothing
    loaded. *)
Theorem load_invariants (combined : list Raw.row) :
  let df := load to_datetime combined in
  NoDup df /\
  drop_duplicates df = df /\
  (forall r, In r df ->
     (exists raw, In raw combined /\ r = clean to_datetime raw) /\
     Name r <> "" /\
     PyStr.strip (Name r) = Name r /\
     Time_s r = parse_time_to_seconds (Time r)) /\
  (combined = [] -> df = []).
Proof.
intros df.
assert (Hn : NoDup df) by apply drop_duplicates_NoDup.
split; [ exact Hn | ].
split; [ now apply drop_duplicates_fixed | ].
split.
- intros r Hr. apply load_in in Hr. destruct Hr as [(raw & Hraw & <-) Hne].
  split; [ exists raw; auto | ].
  split; [ exact Hne | ].
  split; [ apply strip_idempotent | reflexivity ].
- intros ->; reflexivity.
Qed.

End Loaded.

(* ------------------------------------------------------------------ *)
(** ** Listings and what selecting from them gives *)

Section Listings.

Import PyStr.

Let le (a b : string) : Prop := String.leb a b = true.

Lemma insert_Sorted (t : string) (l : list string) :
  Sorted le l -> Sorted le (insert t l).
Proof.
induction l as [|u us IH]; simpl; intros H.
- repeat constructor.
- destruct (String.leb t u) eqn:E.
  + constructor; auto.
  + inversion H as [|? ? Hs Hh]; subst.
    constructor; [ auto | ].
    destruct us as [|v vs]; simpl.
    * constructor. now apply string_leb_false.
    * destruct (String.leb t v).
      -- constructor. now apply string_leb_false.
      -- inversion Hh; subst. now constructor.
Qed.

Lemma sorted_Sorted (l : list string) : Sorted le (sorted l).
Proof.
induction l as [|t ts IH]; simpl; [ constructor | now apply insert_Sorted ].
Qed.

Lemma sorted_ascending (l : list string) : App.ascending (sorted l).
Proof.
apply Sorted_StronglySorted; [ | apply sorted_Sorted ].
intros a b c; apply string_leb_trans.
Qed.

Lemma sorted_unique_NoDup (l : list string) : NoDup (sorted (Frame.unique l)).
Proof.
eapply Permutation_NoDup; [ apply sorted_perm | apply unique_NoDup ].
Qed.

Lemma dropna_in (cs : list cell) (s : string) : In s (App.dropna cs) <-> In (Some s) cs.
Proof.
induction cs as [|[t|] cs IH]; simpl; [ tauto | | ].
- rewrite IH. split; intros [H|H]; auto; left; congruence.
- rewrite IH. split; [ auto | intros [H|H]; [ discriminate | auto ] ].
Qed.

Lemma events_in (df : list row) (e : string) :
  In e (App.get_available_events df) <-> exists r, In r df /\ Event_Type r = e.
Proof.
unfold App.get_available_events.
rewrite sorted_in, unique_in, in_map_iff.
split; intros (r & H1 & H2); exists r; tauto.
Qed.

Lemma swimmers_in (df : list row) (n : string) :
  In n (Frame.get_available_swimmers df) <->
  (exists r, In r df /\ Name r = n) /\ strip n <> "".
Proof.
unfold Frame.get_available_swimmers.
rewrite sorted_in, unique_in, filter_In, in_map_iff, negb_true_iff, String.eqb_neq.
split; intros [(r & H1 & H2) H3]; (split; [ exists r | ]; auto).
Qed.

Lemma teams_in (df : list row) (t : string) :
  In t (tl (App.team_options df)) <-> exists r, In r df /\ Team r = Some t.
Proof.
simpl. rewrite sorted_in, unique_in, dropna_in, in_map_iff.
split; intros (r & H1 & H2); exists r; tauto.
Qed.

(** X5.  The lists offered in the sidebar: the events, the swimmers and the teams
    are each in ascending order and without repetition.  The events are
    exactly the event types of the table, the swimmers exactly its names that
    are not blank, the teams exactly its teams that are not missing. *)
Theorem listings_sorted_and_exact (df : list row) :
  (App.ascending (App.get_available_events df) /\
   NoDup (App.get_available_events df) /\
   forall e, In e (App.get_available_events df) <->
             exists r, In r df /\ Event_Type r = e) /\
  (App.ascending (Frame.get_available_swimmers df) /\
   NoDup (Frame.get_available_swimmers df) /\
   forall n, In n (Frame.get_available_swimmers df) <->
             (exists r, In r df /\ Name r = n) /\ strip n <> "") /\
  (App.ascending (tl (App.team_options df)) /\
   NoDup (tl (App.team_options df)) /\
   forall t, In t (tl (App.team_options df)) <->
             exists r, In r df /\ Team r = Some t).
Proof.
split; [ | split ].
- split; [ apply sorted_ascending | ].
  split; [ apply sorted_unique_NoDup | apply events_in ].
- split; [ apply sorted_ascending | ].
  split; [ apply sorted_unique_NoDup | apply swimmers_in ].
- split; [ simpl; apply sorted_ascending | ].
  split; [ simpl; apply sorted_unique_NoDup | apply teams_in ].
Qed.

Lemma name_key_refl_match (n : string) :
  String.eqb (Query.name_key n) (Query.name_key n) = true.
Proof. apply String.eqb_refl. Qed.

(** X6.  Choosing an entry of a list of the sidebar never gives an empty table:
    every swimmer, event and team that is listed, other than a name that
    equals the entry for all, has at least one row, and all rows with that
    very name, event or team are kept. *)
Theorem listed_choice_is_not_empty (df : list row) :
  (forall n, In n (Frame.get_available_swimmers df) -> n <> "All Swimmers" ->
     Query.by_swimmer n df <> [] /\
     forall r, In r df -> Name r = n -> In r (Query.by_swimmer n df)) /\
  (forall e, In e (App.get_available_events df) -> e <> "All Events" ->
     Query.by_event e df <> [] /\
     forall r, In r (Query.by_event e df) <-> In r df /\ Event_Type r = e) /\
  (forall t, In t (tl (App.team_options df)) -> t <> "All Teams" ->
     Query.by_team t df <> [] /\
     forall r, In r (Query.by_team t df) <-> In r df /\ Team r = Some t).
Proof.
split; [ | split ].
- intros n Hn Hne. apply swimmers_in in Hn. destruct Hn as [(r0 & Hr0 & En) _].
  assert (Hall : forall r, In r df -> Name r = n -> In r (Query.by_swimmer n df)).
  { intros r Hr E. unfold Query.by_swimmer.
    apply String.eqb_neq in Hne; rewrite Hne.
    apply filter_In; split; auto. rewrite E. apply String.eqb_refl. }
  split; auto.
  intros Hnil. specialize (Hall r0 Hr0 En). rewrite Hnil in Hall. destruct Hall.
- intros e Hin Hne. apply events_in in Hin. destruct Hin as (r0 & Hr0 & Ee).
  assert (Hiff : forall r, In r (Query.by_event e df) <-> In r df /\ Event_Type r = e).
  { intros r. unfold Query.by_event.
    apply String.eqb_neq in Hne; rewrite Hne.
    now rewrite filter_In, String.eqb_eq. }
  split; auto.
  intros Hnil. assert (H : In r0 (Query.by_event e df)) by (apply Hiff; auto).
  rewrite Hnil in H; destruct H.
- intros t Hin Hne. apply teams_in in Hin. destruct Hin as (r0 & Hr0 & Et).
  assert (Hiff : forall r, In r (Query.by_team t df) <-> In r df /\ Team r = Some t).
  { intros r. unfold Query.by_team.
    apply String.eqb_neq in Hne; rewrite Hne.
    rewrite filter_In. destruct (Team r) as [u|].
    - rewrite String.eqb_eq. split; intros [H1 H2]; split; auto; congruence.
    - split; intros [H1 H2]; discriminate. }
  split; auto.
  intros Hnil. assert (H : In r0 (Query.by_team t df)) by (apply Hiff; auto).
  rewrite Hnil in H; destruct H.
Qed.

Lemma listed_choice_is_not_empty_witness :
  Query.by_swimmer "Ann Lee" Scenario.ann_lee <> [] /\
  Query.by_event "Freestyle" Scenario.ann_lee <> [].
Proof.
destruct (listed_choice_is_not_empty Scenario.ann_lee) as (H1 & H2 & _).
split.
- exact (proj1 (H1 "Ann Lee" (or_introl eq_refl) ltac:(discriminate))).
- exact (proj1 (H2 "Freestyle" (or_introl eq_refl) ltac:(discriminate))).
Defined.

End Listings.

(* ------------------------------------------------------------------ *)
(** ** Ties, and the two panels that show a best time *)

Section Ties.

Import Query.

Lemma leb_ltb_trans (x y z : float) :
  leb x y = true -> ltb y z = true -> ltb x z = true.
Proof.
unfold leb, ltb, SFleb, SFltb, SFcompare.
destruct x as [sx|sx| |sx mx ex]; destruct y as [sy|sy| |sy my ey];
  destruct z as [sz|sz| |sz mz ez]; try discriminate; try reflexivity;
  try destruct sx; try destruct sy; try destruct sz;
  try discriminate; try reflexivity; intros H1 H2;
  repeat match goal with
         | H : context [Pos.compare_cont Eq ?a ?b] |- _ =>
             rewrite (compare_cont_Eq a b) in H
         | |- context [Pos.compare_cont Eq ?a ?b] =>
             rewrite (compare_cont_Eq a b)
         end;
  repeat match goal with
         | H : context [(?a ?= ?b)%Z] |- _ =>
             destruct (Z.compare_spec a b); simpl in H; try discriminate H
         | |- context [(?a ?= ?b)%Z] =>
             destruct (Z.compare_spec a b); simpl
         | H : context [(?a ?= ?b)%positive] |- _ =>
             destruct (Pos.compare_spec a b); simpl in H; try discriminate H
         | |- context [(?a ?= ?b)%positive] =>
             destruct (Pos.compare_spec a b); simpl
         end;
  try reflexivity; try discriminate; try lia.
Qed.

Lemma ltb_leb_trans (x y z : float) :
  ltb x y = true -> leb y z = true -> ltb x z = true.
Proof.
unfold leb, ltb, SFleb, SFltb, SFcompare.
destruct x as [sx|sx| |sx mx ex]; destruct y as [sy|sy| |sy my ey];
  destruct z as [sz|sz| |sz mz ez]; try discriminate; try reflexivity;
  try destruct sx; try destruct sy; try destruct sz;
  try discriminate; try reflexivity; intros H1 H2;
  repeat match goal with
         | H : context [Pos.compare_cont Eq ?a ?b] |- _ =>
             rewrite (compare_cont_Eq a b) in H
         | |- context [Pos.compare_cont Eq ?a ?b] =>
             rewrite (compare_cont_Eq a b)
         end;
  repeat match goal with
         | H : context [(?a ?= ?b)%Z] |- _ =>
             destruct (Z.compare_spec a b); simpl in H; try discriminate H
         | |- context [(?a ?= ?b)%Z] =>
             destruct (Z.compare_spec a b); simpl
         | H : context [(?a ?= ?b)%positive] |- _ =>
             destruct (Pos.compare_spec a b); simpl in H; try discriminate H
         | |- context [(?a ?= ?b)%positive] =>
             destruct (Pos.compare_spec a b); simpl
         end;
  try reflexivity; try discriminate; try lia.
Qed.

Context {A : Type} (key : A -> float).

Lemma fold_first_min_first (xs : list A) :
  forall b,
    (forall x, In x (b :: xs) -> is_nan (key x) = false) ->
    exists l1 l2,
      b :: xs = (l1 ++ fold_left (first_min key) xs b :: l2)%list /\
      forall r, In r l1 -> ltb (key (fold_left (first_min key) xs b)) (key r) = true.
Proof.
induction xs as [|a xs IH]; intros b Hn.
- exists [], []; split; [ reflexivity | intros r [] ].
- cbn [fold_left].
  assert (Ha : is_nan (key a) = false) by (apply Hn; simpl; auto).
  assert (Hb : is_nan (key b) = false) by (apply Hn; simpl; auto).
  assert (Hn' : forall y, In y (first_min key b a :: xs) -> is_nan (key y) = false).
  { intros y [<-|Hy]; [ | apply Hn; simpl; auto ].
    unfold first_min; destruct (ltb (key a) (key b)); auto. }
  destruct (IH (first_min key b a) Hn') as (l1 & l2 & E & Hlt).
  set (m := fold_left (first_min key) xs (first_min key b a)) in *.
  assert (Hle : leb (key m) (key (first_min key b a)) = true)
    by (apply (fold_first_min_le key xs _ Hn'); simpl; auto).
  unfold first_min in E, Hle. destruct (ltb (key a) (key b)) eqn:Eab.
  + exists (b :: l1), l2; split; [ simpl; now rewrite E | ].
    intros r [<-|Hr]; [ | now apply Hlt ].
    now apply (leb_ltb_trans _ (key a)).
  + assert (Hba : leb (key b) (key a) = true) by now apply ltb_false_leb.
    destruct l1 as [|c l1].
    * simpl in E. injection E as E1 E2.
      exists [], (a :: l2); split; [ simpl; congruence | intros r [] ].
    * simpl in E. injection E as E1 E2. subst c.
      exists (b :: a :: l1), l2; split; [ simpl; congruence | ].
      assert (Hmb : ltb (key m) (key b) = true) by (apply Hlt; simpl; auto).
      intros r [<-|[<-|Hr]]; auto.
      -- now apply (ltb_leb_trans _ (key b)).
      -- apply Hlt; simpl; auto.
Qed.

Lemma fold_first_min_map (xs : list A) :
  forall b,
    fold_left (first_min (fun v : float => v)) (map key xs) (key b) =
    key (fold_left (first_min key) xs b).
Proof.
induction xs as [|a xs IH]; intros b; simpl; auto.
rewrite <- IH. f_equal.
unfold first_min. destruct (ltb (key a) (key b)); reflexivity.
Qed.

End Ties.

Section BestPanels.

Import Query.

Lemma best_row_has_time (chart_data : list row) (b : row) :
  best_performance chart_data = BestRow b -> In b chart_data /\ has_time b = true.
Proof.
unfold best_performance.
destruct (filter has_time chart_data) as [|x rest] eqn:E; [ discriminate | ].
intros H; injection H as <-.
apply filter_In. rewrite E. apply fold_first_min_in.
Qed.

(** X7.  Among the records with a time, the best performance is the first, in the
    order of the table, of those with the least time: every record with a
    time that stands before the chosen one is strictly slower. *)
Theorem best_performance_first_of_ties (chart_data : list row) (b : row) :
  best_performance chart_data = BestRow b ->
  exists l1 l2,
    filter has_time chart_data = (l1 ++ b :: l2)%list /\
    forall r, In r l1 -> ltb (Time_s b) (Time_s r) = true.
Proof.
unfold best_performance.
destruct (filter has_time chart_data) as [|x rest] eqn:E; [ discriminate | ].
intros H; injection H as <-.
apply fold_first_min_first.
intros y Hy; rewrite <- E in Hy; apply filter_In in Hy.
now apply has_time_not_nan.
Qed.

Lemma best_performance_first_of_ties_witness :
  exists l1 l2,
    filter has_time BestSpec.tie = (l1 ++ BestSpec.tie_first :: l2)%list /\
    forall r, In r l1 -> ltb (Time_s BestSpec.tie_first) (Time_s r) = true.
Proof.
exact (best_performance_first_of_ties BestSpec.tie BestSpec.tie_first eq_refl).
Defined.

Lemma filter_map_commute {A B : Type} (f : A -> B) (p : B -> bool) (l : list A) :
  filter p (map f l) = map f (filter (fun x => p (f x)) l).
Proof.
induction l as [|a l IH]; simpl; auto.
destruct (p (f a)); simpl; now rewrite IH.
Qed.

Lemma group_min_best (g : list row) :
  group_min (map Time_s g) = BestSpec.best_time (best_performance g).
Proof.
unfold group_min, best_performance, series_min.
rewrite filter_map_commute. fold has_time.
change (fun x : row => negb (is_nan (Time_s x))) with has_time.
destruct (filter has_time g) as [|x rest]; simpl; auto.
apply (fold_first_min_map Time_s).
Qed.

(** X8.  The event comparison and the best-performance panel agree: the best time
    in the row of an event type is the time of the record that the
    best-performance panel chooses among the records of that event type, and
    null when that panel reports that there is no time. *)
Theorem comparison_agrees_with_best (filtered : list row) (c : comparison_row) :
  In c (event_comparison filtered) ->
  Best_Time_s c =
  BestSpec.best_time (best_performance (group (comp_Event_Type c) filtered)).
Proof.
unfold event_comparison; intros Hc; apply in_map_iff in Hc.
destruct Hc as (k & <- & _); simpl. apply group_min_best.
Qed.

Lemma comparison_agrees_with_best_witness :
  Best_Time_s Scenario.ann_lee_comparison =
  BestSpec.best_time (best_performance (group "Freestyle" Scenario.ann_lee)).
Proof.
exact (comparison_agrees_with_best Scenario.ann_lee Scenario.ann_lee_comparison
         (or_introl eq_refl)).
Defined.

Lemma count_present_le (cs : list cell) : (count_present cs <= List.length cs)%nat.
Proof. unfold count_present; apply filter_length_le. Qed.

(** X9.  The rows of the event comparison are in ascending order of event type.
    No row is for an event type without records, and the count in a row is
    at most the number of records of its event type. *)
Theorem comparison_rows_ordered (filtered : list row) :
  App.ascending (map comp_Event_Type (event_comparison filtered)) /\
  forall c, In c (event_comparison filtered) ->
    group (comp_Event_Type c) filtered <> [] /\
    (Event_Count c <= List.length (group (comp_Event_Type c) filtered))%nat.
Proof.
split.
- rewrite comparison_keys. apply sorted_ascending.
- intros c Hc.
  assert (Hk : In (comp_Event_Type c) (map comp_Event_Type (event_comparison filtered)))
    by now apply in_map.
  rewrite comparison_keys in Hk. apply group_keys_in in Hk.
  destruct Hk as (r & Hr & Er).
  split.
  + intros Hnil. assert (H : In r (group (comp_Event_Type c) filtered))
      by (apply group_in; auto).
    rewrite Hnil in H; destruct H.
  + unfold event_comparison in Hc; apply in_map_iff in Hc.
    destruct Hc as (k & <- & _); simpl.
    rewrite <- (length_map Time (group k filtered)). apply count_present_le.
Qed.

Variable to_datetime : cell -> timestamp.

(** X10.  In a table that was loaded, and in every selection of its rows, the
    record chosen as best performance never has a missing raw time nor a raw
    time that is a non-finishing marker. *)
Theorem best_is_never_a_marker (combined : list Raw.row) (chart_data : list row) (b : row) :
  (forall r, In r chart_data -> In r (Frame.load to_datetime combined)) ->
  best_performance chart_data = BestRow b ->
  exists t, Time b = Some t /\ is_marker t = false.
Proof.
intros Hsub Hb.
destruct (best_row_has_time chart_data b Hb) as [Hin Ht].
assert (Et : Time_s b = parse_time_to_seconds (Time b)).
{ destruct (proj1 (load_in to_datetime combined b) (Hsub b Hin)) as [(raw & _ & <-) _].
  reflexivity. }
unfold has_time in Ht. rewrite Et in Ht.
destruct (Time b) as [t|]; [ | discriminate Ht ].
exists t; split; auto.
destruct (is_marker t) eqn:Em; auto.
rewrite (parse_time_marker t Em) in Ht; discriminate.
Qed.

End BestPanels.

Lemma best_is_never_a_marker_witness :
  exists t, Time BestSpec.tie_first = Some t /\ is_marker t = false.
Proof.
exact (best_is_never_a_marker Scenario.no_dates _ BestSpec.tie BestSpec.tie_first
         (fun r H => H) eq_refl).
Defined.

(* ------------------------------------------------------------------ *)
(** ** The chain of filters *)

Section FilterChain.

Import Query FilterSpec.

Lemma filter_true {A : Type} (l : list A) : filter (fun _ => true) l = l.
Proof. induction l; simpl; congruence. Qed.

Lemma filter_filter {A : Type} (f g : A -> bool) (l : list A) :
  filter f (filter g l) = filter (fun x => (g x && f x)%bool) l.
Proof.
induction l as [|a l IH]; simpl; auto.
destruct (g a); simpl; [ destruct (f a); now rewrite IH | exact IH ].
Qed.

Lemma filter_ext' {A : Type} (f g : A -> bool) (l : list A) :
  (forall x, f x = g x) -> filter f l = filter g l.
Proof. intros H; induction l as [|a l IH]; simpl; auto. rewrite H, IH; reflexivity. Qed.

Lemma by_swimmer_filter (sw : string) (df : list row) :
  by_swimmer sw df = filter (swimmer_ok sw) df.
Proof.
unfold by_swimmer, swimmer_ok.
destruct (String.eqb sw "All Swimmers"); simpl; [ now rewrite filter_true | reflexivity ].
Qed.

Lemma by_event_filter (ev : string) (df : list row) :
  by_event ev df = filter (event_ok ev) df.
Proof.
unfold by_event, event_ok.
destruct (String.eqb ev "All Events"); simpl; [ now rewrite filter_true | reflexivity ].
Qed.

Lemma by_team_filter (tm : string) (df : list row) :
  by_team tm df = filter (team_ok tm) df.
Proof.
unfold by_team, team_ok.
destruct (String.eqb tm "All Teams"); simpl; [ now rewrite filter_true | reflexivity ].
Qed.

Lemma first_three_filter (sw ev tm : string) (df : list row) :
  by_team tm (by_event ev (by_swimmer sw df)) = filter (passes sw ev tm) df.
Proof.
rewrite by_swimmer_filter, by_event_filter, by_team_filter, !filter_filter.
apply filter_ext'. intros x; unfold passes. now rewrite andb_assoc.
Qed.

Lemma filter_idempotent {A : Type} (f : A -> bool) (l : list A) :
  filter f (filter f l) = filter f l.
Proof.
apply filter_all. intros x Hx; now apply filter_In in Hx.
Qed.

Lemma by_date_idempotent (dr : option (list Z)) (l : list row) :
  by_date dr (by_date dr l) = by_date dr l.
Proof.
unfold by_date.
destruct dr as [[|d0 [|d1 [|d2 ds]]]|]; auto.
destruct (all_dates_null l) eqn:E; [ now rewrite E | ].
destruct (all_dates_null (filter (in_range (midnight d0) (midnight d1)) l)); auto.
apply filter_idempotent.
Qed.

Lemma by_date_filter (dr : option (list Z)) (l : list row) :
  exists f, by_date dr l = filter f l.
Proof.
unfold by_date.
destruct dr as [[|d0 [|d1 [|d2 ds]]]|];
  try (exists (fun _ => true); now rewrite filter_true).
destruct (all_dates_null l).
- exists (fun _ => true); now rewrite filter_true.
- now exists (in_range (midnight d0) (midnight d1)).
Qed.

(** X11.  The filters of the page.  The rows that pass the swimmer, event and team
    filters are rows of the table, in their order, that satisfy all three;
    the order in which these three filters are applied does not matter.  The
    date range is applied to what they leave: it is ignored when fewer or
    more than two days are chosen or when none of the rows left has a date,
    and then rows without a date stay; otherwise only rows dated within the
    range stay.  Filtering a second time with the same choices changes
    nothing. *)
Theorem filter_chain_spec (sw ev tm : string) (dr : option (list Z)) (df : list row) :
  let pre := filter (passes sw ev tm) df in
  let shown := App.apply_filters sw ev tm dr df in
  (forall d0 d1 : Z,
      dr = Some [d0; d1] -> all_dates_null pre = false ->
      shown = filter (fun r => (passes sw ev tm r &&
                                in_range (midnight d0) (midnight d1) r)%bool) df) /\
  (date_filter_active dr pre = false -> shown = pre) /\
  by_event ev (by_swimmer sw df) = by_swimmer sw (by_event ev df) /\
  by_team tm (by_swimmer sw df) = by_swimmer sw (by_team tm df) /\
  by_team tm (by_event ev df) = by_event ev (by_team tm df) /\
  App.apply_filters sw ev tm dr shown = shown.
Proof.
intros pre shown.
assert (Epre : by_team tm (by_event ev (by_swimmer sw df)) = pre)
  by apply first_three_filter.
assert (Eshown : shown = by_date dr pre)
  by (unfold shown, App.apply_filters; now rewrite Epre).
split; [ | split; [ | split; [ | split; [ | split ] ] ] ].
- intros d0 d1 -> Hn. rewrite Eshown. unfold by_date. rewrite Hn.
  unfold pre. now rewrite filter_filter.
- rewrite Eshown. unfold by_date, date_filter_active.
  destruct dr as [[|d0 [|d1 [|d2 ds]]]|]; auto.
  destruct (all_dates_null pre); simpl; auto. discriminate.
- rewrite !by_swimmer_filter, !by_event_filter, !filter_filter.
  apply filter_ext'. intros x; apply andb_comm.
- rewrite !by_swimmer_filter, !by_team_filter, !filter_filter.
  apply filter_ext'. intros x; apply andb_comm.
- rewrite !by_event_filter, !by_team_filter, !filter_filter.
  apply filter_ext'. intros x; apply andb_comm.
- unfold App.apply_filters at 1. rewrite first_three_filter.
  assert (Efix : filter (passes sw ev tm) shown = shown).
  { rewrite Eshown. destruct (by_date_filter dr pre) as [f ->].
    unfold pre. rewrite !filter_filter. apply filter_ext'.
    intros x. destruct (passes sw ev tm x), (f x); reflexivity. }
  rewrite Efix, Eshown. apply by_date_idempotent.
Qed.

End FilterChain.

Lemma filter_chain_spec_witness :
  App.apply_filters "Ann Lee" "All Events" "All Teams" (Some [10; 20]) DateScenario.four =
  filter (fun r => (FilterSpec.passes "Ann Lee" "All Events" "All Teams" r &&
                    Query.in_range (Query.midnight 10) (Query.midnight 20) r)%bool)
    DateScenario.four.
Proof.
exact (proj1 (filter_chain_spec "Ann Lee" "All Events" "All Teams" (Some [10; 20])
                DateScenario.four) 10 20 eq_refl eq_refl).
Defined.

(* ------------------------------------------------------------------ *)
(** ** The summary metrics *)

Section Metrics.

Import App.

Lemma unique_length_le (l : list string) :
  (List.length (Frame.unique l) <= List.length l)%nat.
Proof.
induction l as [|s ss IH]; simpl; auto.
apply le_n_S. eapply Nat.le_trans; [ apply filter_length_le | exact IH ].
Qed.

Lemma unique_not_nil (l : list string) :
  l <> [] -> (1 <= List.length (Frame.unique l))%nat.
Proof. destruct l; [ congruence | simpl; lia ]. Qed.

Lemma filter_none {A : Type} (f : A -> bool) (l : list A) :
  (forall x, In x l -> f x = false) -> filter f l = [].
Proof.
induction l as [|a l IH]; simpl; auto.
intros H. rewrite (H a) by auto. apply IH; auto.
Qed.

Lemma unique_constant (e : string) (l : list string) :
  l <> [] -> (forall x, In x l -> x = e) -> Frame.unique l = [e].
Proof.
destruct l as [|s ss]; [ congruence | ].
intros _ H; simpl.
assert (Es : s = e) by (apply H; simpl; auto). subst s.
assert (En : filter (fun x => negb (String.eqb e x)) (Frame.unique ss) = []).
{ apply filter_none. intros x Hx. apply (proj1 (unique_in _ _)) in Hx.
  assert (Ex : x = e) by (apply H; right; exact Hx). subst x.
  now rewrite String.eqb_refl. }
now rewrite En.
Qed.

Lemma dropna_some {A : Type} (f : A -> string) (l : list A) :
  dropna (map (fun r => Some (f r)) l) = map f l.
Proof. induction l as [|a l IH]; simpl; congruence. Qed.

Lemma dropna_length_le (cs : list cell) :
  (List.length (dropna cs) <= List.length cs)%nat.
Proof. induction cs as [|[s|] cs IH]; simpl; lia. Qed.

Lemma event_types_one (filtered : list row) (ev : string) :
  filtered <> [] ->
  (forall r, In r filtered -> Event_Type r = ev) ->
  Event_Types (summary_metrics filtered) = 1%nat.
Proof.
intros Hne Hev. unfold summary_metrics, nunique; simpl.
rewrite dropna_some, (unique_constant ev); auto.
- destruct filtered; [ congruence | discriminate ].
- intros x Hx; apply in_map_iff in Hx. destruct Hx as (r & <- & Hr). now apply Hev.
Qed.

(** X12.  The four metrics of a table that is not empty: the swimmers and the event
    types that are counted are at least one and at most the number of rows,
    the meets at most the number of rows.  When all rows are of one event
    type, the count of event types is one. *)
Theorem summary_metrics_bounds (filtered : list row) :
  filtered <> [] ->
  let m := summary_metrics filtered in
  Total_Results m = List.length filtered /\
  (1 <= Unique_Swimmers m <= Total_Results m)%nat /\
  (1 <= Event_Types m <= Total_Results m)%nat /\
  (Total_Meets m <= Total_Results m)%nat /\
  (forall ev : string,
      (forall r, In r filtered -> Event_Type r = ev) ->
      Event_Types m = 1%nat).
Proof.
intros Hne m; unfold m, summary_metrics, nunique; simpl.
rewrite !dropna_some.
assert (Hn : forall (f : row -> string), map f filtered <> [])
  by (intros f; destruct filtered; [ congruence | discriminate ]).
split; [ reflexivity | ].
split; [ split; [ apply unique_not_nil, Hn | ] | ].
{ rewrite <- (length_map Name filtered). apply unique_length_le. }
split; [ split; [ apply unique_not_nil, Hn | ] | ].
{ rewrite <- (length_map Event_Type filtered). apply unique_length_le. }
split.
{ eapply Nat.le_trans; [ apply unique_length_le | ].
  eapply Nat.le_trans; [ apply dropna_length_le | now rewrite length_map ]. }
intros ev Hev.
pose proof (event_types_one filtered ev Hne Hev) as H.
unfold summary_metrics, nunique in H; simpl in H.
now rewrite dropna_some in H.
Qed.

(** X13.  With an event chosen, the count of event types on the page is one
    whenever the filters leave a row. *)
Theorem one_event_type_when_chosen (sw ev tm : string) (dr : option (list Z))
        (df : list row) :
  ev <> "All Events" ->
  apply_filters sw ev tm dr df <> [] ->
  Event_Types (summary_metrics (apply_filters sw ev tm dr df)) = 1%nat.
Proof.
intros Hev Hne.
apply (event_types_one _ ev Hne).
intros r Hr. unfold apply_filters in Hr.
destruct (by_date_filter dr (Query.by_team tm (Query.by_event ev (Query.by_swimmer sw df))))
  as [f Ef].
rewrite Ef in Hr. apply filter_In in Hr. destruct Hr as [Hr _].
rewrite by_team_filter in Hr. apply filter_In in Hr. destruct Hr as [Hr _].
unfold Query.by_event in Hr. apply String.eqb_neq in Hev. rewrite Hev in Hr.
apply filter_In in Hr. destruct Hr as [_ Hr]. now apply String.eqb_eq.
Qed.

End Metrics.

Lemma summary_metrics_bounds_witness :
  (1 <= App.Unique_Swimmers (App.summary_metrics Scenario.ann_lee) <= 3)%nat.
Proof.
exact (proj1 (proj2 (summary_metrics_bounds Scenario.ann_lee ltac:(discriminate)))).
Defined.

Lemma one_event_type_when_chosen_witness :
  App.Event_Types
    (App.summary_metrics
       (App.apply_filters "All Swimmers" "Freestyle" "All Teams" None Scenario.ann_lee)) =
  1%nat.
Proof.
exact (one_event_type_when_chosen "All Swimmers" "Freestyle" "All Teams" None
         Scenario.ann_lee ltac:(discriminate) ltac:(discriminate)).
Defined.

(* ------------------------------------------------------------------ *)
(** ** The performance chart *)

Section DateOrder.

Import App.

Lemma date_le_trans (a b c : timestamp) :
  date_le a b = true -> date_le b c = true -> date_le a c = true.
Proof.
destruct a as [x|], b as [y|], c as [z|]; simpl; try discriminate; auto.
rewrite !Z.leb_le; lia.
Qed.

Lemma date_le_false (a b : timestamp) : date_le a b = false -> date_le b a = true.
Proof.
destruct a as [x|], b as [y|]; simpl; try discriminate; auto.
rewrite Z.leb_gt, Z.leb_le; lia.
Qed.

Let le (a b : row) : Prop := date_le (Meet_Date a) (Meet_Date b) = true.

Lemma insert_by_date_perm (r : row) (l : list row) :
  Permutation (insert_by_date r l) (r :: l).
Proof.
induction l as [|u us IH]; simpl; auto.
destruct (date_le (Meet_Date r) (Meet_Date u)); auto.
eapply perm_trans; [ apply perm_skip, IH | apply perm_swap ].
Qed.

Lemma insertion_sort_by_date_perm (l : list row) :
  Permutation (insertion_sort_by_date l) l.
Proof.
induction l as [|r rs IH]; simpl; auto.
eapply perm_trans; [ apply insert_by_date_perm | now apply perm_skip ].
Qed.

Lemma insert_by_date_Sorted (r : row) (l : list row) :
  Sorted le l -> Sorted le (insert_by_date r l).
Proof.
induction l as [|u us IH]; simpl; intros H.
- repeat constructor.
- destruct (date_le (Meet_Date r) (Meet_Date u)) eqn:E.
  + constructor; auto.
  + inversion H as [|? ? Hs Hh]; subst.
    constructor; [ auto | ].
    destruct us as [|v vs]; simpl.
    * constructor. now apply date_le_false.
    * destruct (date_le (Meet_Date r) (Meet_Date v)).
      -- constructor. now apply date_le_false.
      -- inversion Hh; subst. now constructor.
Qed.

Lemma insertion_sort_by_date_ascending (l : list row) :
  by_date_ascending (insertion_sort_by_date l).
Proof.
apply Sorted_StronglySorted.
- intros a b c. apply date_le_trans.
- induction l as [|r rs IH]; simpl; [ constructor | now apply insert_by_date_Sorted ].
Qed.

Lemma StronglySorted_map {A B : Type} (R : B -> B -> Prop) (f : A -> B) (l : list A) :
  StronglySorted (fun a b => R (f a) (f b)) l -> StronglySorted R (map f l).
Proof.
induction 1 as [|a l Hs IH Hf]; simpl; constructor; auto.
apply Forall_map. exact Hf.
Qed.

End DateOrder.

Section ChartSpec.

Import App Query.

Variable sort_by_date : list row -> list row.

Hypothesis sort_permutes : forall l, Permutation (sort_by_date l) l.
Hypothesis sort_ascends : forall l, by_date_ascending (sort_by_date l).

(** X14.  The chart.  There is no chart exactly when no row has a time.  When there
    is one, its points are the rows that have a time, each once, those
    without a time left out: dates, seconds and hover data are read off the
    same rows in the same order; no plotted time is null; the dates are in
    ascending order with the missing dates last. *)
Theorem performance_chart_spec (df : list row) :
  (create_performance_chart sort_by_date df = None <->
   forall r, In r df -> has_time r = false) /\
  forall fig,
    create_performance_chart sort_by_date df = Some fig ->
    (exists rows,
        Permutation rows (filter has_time df) /\
        fig_x fig = map Meet_Date rows /\
        fig_y fig = map Time_s rows /\
        fig_customdata fig = map (fun r => (Time r, Rank r)) rows) /\
    List.length (fig_x fig) = valid_count df /\
    List.length (fig_y fig) = valid_count df /\
    List.length (fig_customdata fig) = valid_count df /\
    (forall v, In v (fig_y fig) -> is_nan v = false) /\
    StronglySorted (fun a b => date_le a b = true) (fig_x fig).
Proof.
assert (Hnone : filter has_time df = [] <-> forall r, In r df -> has_time r = false).
{ split.
  - intros E r Hr. destruct (has_time r) eqn:Ht; auto.
    assert (H : In r (filter has_time df)) by (apply filter_In; auto).
    rewrite E in H; destruct H.
  - intros H. now apply filter_none. }
split.
- unfold create_performance_chart. destruct df as [|r0 df0].
  + split; [ intros _ r [] | reflexivity ].
  + rewrite <- Hnone.
    destruct (filter has_time (r0 :: df0)); split; try discriminate; reflexivity.
- intros fig Hfig. unfold create_performance_chart in Hfig.
  destruct df as [|r0 df0]; [ discriminate | ].
  set (valid := filter has_time (r0 :: df0)) in *.
  assert (Efig : fig = {| fig_x := map Meet_Date (sort_by_date valid);
                          fig_y := map Time_s (sort_by_date valid);
                          fig_customdata :=
                            map (fun r => (Time r, Rank r)) (sort_by_date valid) |}).
  { destruct valid; [ discriminate | now injection Hfig ]. }
  clear Hfig. subst fig; cbn [fig_x fig_y fig_customdata].
  pose proof (sort_permutes valid) as Hp.
  assert (Hlen : List.length (sort_by_date valid) = valid_count (r0 :: df0))
    by (unfold valid_count; fold valid; now apply Permutation_length).
  split; [ exists (sort_by_date valid); auto | ].
  rewrite !length_map.
  repeat split; auto.
  + intros v Hv. apply in_map_iff in Hv. destruct Hv as (r & <- & Hr).
    apply (Permutation_in _ Hp) in Hr. apply filter_In in Hr.
    now apply has_time_not_nan.
  + apply StronglySorted_map, sort_ascends.
Qed.

End ChartSpec.

Lemma performance_chart_spec_witness :
  exists rows,
    Permutation rows (filter Query.has_time DateScenario.four) /\
    map Meet_Date rows =
    [Some (Query.midnight 10); Some (Query.midnight 20); Some (Query.midnight 30); None].
Proof.
destruct (performance_chart_spec App.insertion_sort_by_date
            insertion_sort_by_date_perm insertion_sort_by_date_ascending
            DateScenario.four) as [_ H].
destruct (H _ eq_refl) as ((rows & Hp & Hx & _) & _).
exists rows; split; [ exact Hp | ].
rewrite <- Hx. reflexivity.
Defined.

(* ------------------------------------------------------------------ *)
(** ** Event types and the files they come from *)

Section EventTypes.

Import Files.

Lemma replace_length (a b : ascii) (s : string) :
  String.length (replace a b s) = String.length s.
Proof. induction s as [|c r IH]; simpl; congruence. Qed.

Lemma replace_removes (a b : ascii) (s : string) :
  a <> b -> PyStr.contains a (replace a b s) = false.
Proof.
intros Hab. induction s as [|c r IH]; simpl; auto.
destruct (Ascii.eqb c a) eqn:E.
- destruct (Ascii.eqb a b) eqn:E'; [ apply Ascii.eqb_eq in E'; contradiction | exact IH ].
- rewrite Ascii.eqb_sym, E. exact IH.
Qed.

Lemma replace_absent (a b : ascii) (s : string) :
  PyStr.contains a s = false -> replace a b s = s.
Proof.
induction s as [|c r IH]; simpl; auto.
rewrite (Ascii.eqb_sym a c).
destruct (Ascii.eqb c a); [ discriminate | ].
intros H. now rewrite IH.
Qed.

Lemma combined_in (files : list file) (raw : Raw.row) :
  In raw (combined files) <->
  exists f r, In f files /\ In r (snd f) /\ raw = with_event (event_type (fst f)) r.
Proof.
unfold combined. rewrite in_concat. split.
- intros (l & Hl & Hraw). apply in_map_iff in Hl. destruct Hl as (f & <- & Hf).
  unfold frame in Hraw. apply in_map_iff in Hraw. destruct Hraw as (r & <- & Hr).
  exists f, r; auto.
- intros (f & r & Hf & Hr & ->). exists (frame f). split.
  + now apply in_map.
  + unfold frame. now apply in_map.
Qed.

Variable to_datetime : cell -> timestamp.

(** X15.  Event types come from the names of the files.  In the table loaded from
    a list of files, the event type of each row is the stem of the file that
    the row was read from with every underscore turned into a space, so it
    holds no underscore and is as long as the stem; a stem without underscore
    is its own event type.  The events that are listed are exactly the event
    types of the files with at least one row whose name, as text and trimmed,
    is not empty. *)
Theorem event_types_come_from_files (files : list file) :
  let df := Frame.load to_datetime (combined files) in
  (forall r, In r df ->
     PyStr.contains "_" (Event_Type r) = false /\
     exists f raw,
       In f files /\ In raw (snd f) /\
       Event_Type r = event_type (fst f) /\
       String.length (Event_Type r) = String.length (fst f) /\
       r = Frame.clean to_datetime (with_event (event_type (fst f)) raw)) /\
  (forall e, In e (App.get_available_events df) <->
     exists f raw,
       In f files /\ In raw (snd f) /\ event_type (fst f) = e /\
       PyStr.strip (Frame.astype_str (Raw.Name raw)) <> "") /\
  (forall stem, PyStr.contains "_" stem = false -> event_type stem = stem).
Proof.
intros df. split; [ | split ].
- intros r Hr. apply load_in in Hr. destruct Hr as [(raw & Hraw & <-) _].
  apply combined_in in Hraw. destruct Hraw as (f & r0 & Hf & Hr0 & ->).
  split; [ simpl; apply replace_removes; discriminate | ].
  exists f, r0. repeat split; auto.
  simpl. apply replace_length.
- intros e. rewrite events_in. split.
  + intros (r & Hr & <-). apply load_in in Hr. destruct Hr as [(raw & Hraw & <-) Hne].
    apply combined_in in Hraw. destruct Hraw as (f & r0 & Hf & Hr0 & ->).
    exists f, r0. repeat split; auto.
  + intros (f & r0 & Hf & Hr0 & <- & Hne).
    exists (Frame.clean to_datetime (with_event (event_type (fst f)) r0)).
    split; [ | reflexivity ].
    apply load_in. split; [ | exact Hne ].
    exists (with_event (event_type (fst f)) r0). split; [ | reflexivity ].
    apply combined_in. exists f, r0; auto.
- intros stem. apply replace_absent.
Qed.

End EventTypes.

Lemma event_types_come_from_files_witness :
  In "50 Yard Free"
     (App.get_available_events
        (Frame.load Scenario.no_dates (Files.combined [Files.free_50]))).
Proof.
apply (proj1 (proj2 (event_types_come_from_files Scenario.no_dates [Files.free_50]))).
exists Files.free_50, (Scenario.entry (Some "Ann Lee") (Some "30.00") "unset").
repeat split; [ now left | now left | discriminate ].
Defined.

(* ------------------------------------------------------------------ *)
(** ** The theorems above at the three results of Ann Lee *)

Lemma load_invariants_witness :
  Name Scenario.ann_lee_first <> "" /\
  PyStr.strip (Name Scenario.ann_lee_first) = Name Scenario.ann_lee_first /\
  Time_s Scenario.ann_lee_first = parse_time_to_seconds (Time Scenario.ann_lee_first).
Proof.
destruct (load_invariants Scenario.no_dates
            [ Scenario.entry (Some "Ann Lee") (Some "1:05.00") "Freestyle";
              Scenario.entry (Some "Ann Lee") (Some "DQ") "Freestyle";
              Scenario.entry (Some "Ann Lee") (Some "1:00.00") "Freestyle" ])
  as (_ & _ & H & _).
exact (proj2 (H Scenario.ann_lee_first (or_introl eq_refl))).
Defined.

Lemma listings_sorted_and_exact_witness :
  In "Freestyle" (App.get_available_events Scenario.ann_lee) /\
  In "Ann Lee" (Frame.get_available_swimmers Scenario.ann_lee).
Proof.
destruct (listings_sorted_and_exact Scenario.ann_lee) as ((_ & _ & He) & (_ & _ & Hs) & _).
split.
- apply (proj2 (He "Freestyle")).
  exists Scenario.ann_lee_first. split; [ exact (or_introl eq_refl) | reflexivity ].
- apply (proj2 (Hs "Ann Lee")). split; [ | discriminate ].
  exists Scenario.ann_lee_first. split; [ exact (or_introl eq_refl) | reflexivity ].
Defined.

Lemma comparison_rows_ordered_witness :
  Query.group "Freestyle" Scenario.ann_lee <> [] /\
  (3 <= List.length (Query.group "Freestyle" Scenario.ann_lee))%nat.
Proof.
exact (proj2 (comparison_rows_ordered Scenario.ann_lee)
         Scenario.ann_lee_comparison (or_introl eq_refl)).
Defined.

(* ------------------------------------------------------------------ *)
(** ** The date range that the page starts with *)

Section DefaultRange.

Import Query DateInput.

Lemma present_dates_in (df : list row) (d : Z) :
  In d (present_dates df) <-> exists r, In r df /\ Meet_Date r = Some d.
Proof.
induction df as [|r rs IH]; simpl.
- split; [ intros [] | intros (r & [] & _) ].
- destruct (Meet_Date r) as [x|] eqn:E; simpl; rewrite IH; split.
  + intros [<-|(r' & H1 & H2)]; [ exists r; auto | exists r'; auto ].
  + intros (r' & [<-|H1] & H2); [ left; congruence | right; exists r'; auto ].
  + intros (r' & H1 & H2); exists r'; auto.
  + intros (r' & [<-|H1] & H2); [ congruence | exists r'; auto ].
Qed.

Lemma all_dates_null_false (df : list row) :
  all_dates_null df = false <-> exists r d, In r df /\ Meet_Date r = Some d.
Proof.
unfold all_dates_null. induction df as [|r rs IH]; simpl.
- split; [ discriminate | intros (r & d & [] & _) ].
- destruct (Meet_Date r) as [x|] eqn:E; simpl.
  + split; [ intros _; exists r, x; auto | reflexivity ].
  + rewrite IH. split.
    * intros (r' & d & H1 & H2); exists r', d; auto.
    * intros (r' & d & [<-|H1] & H2); [ congruence | exists r', d; auto ].
Qed.

Lemma fold_min_le (ds : list Z) :
  forall d x, In x (d :: ds) -> fold_left Z.min ds d <= x.
Proof.
induction ds as [|a ds IH]; intros d x; simpl.
- intros [<-|[]]; lia.
- intros [<-|[<-|H]].
  + specialize (IH (Z.min d a) (Z.min d a) (or_introl eq_refl)). lia.
  + specialize (IH (Z.min d a) (Z.min d a) (or_introl eq_refl)). lia.
  + apply IH; simpl; auto.
Qed.

Lemma fold_max_ge (ds : list Z) :
  forall d x, In x (d :: ds) -> x <= fold_left Z.max ds d.
Proof.
induction ds as [|a ds IH]; intros d x; simpl.
- intros [<-|[]]; lia.
- intros [<-|[<-|H]].
  + specialize (IH (Z.max d a) (Z.max d a) (or_introl eq_refl)). lia.
  + specialize (IH (Z.max d a) (Z.max d a) (or_introl eq_refl)). lia.
  + apply IH; simpl; auto.
Qed.

Lemma fold_min_in (ds : list Z) : forall d, In (fold_left Z.min ds d) (d :: ds).
Proof.
induction ds as [|a ds IH]; intros d; simpl; auto.
destruct (IH (Z.min d a)) as [H|H]; auto.
destruct (Z.min_spec d a) as [[_ E]|[_ E]]; rewrite E in *; auto.
Qed.

Lemma fold_max_in (ds : list Z) : forall d, In (fold_left Z.max ds d) (d :: ds).
Proof.
induction ds as [|a ds IH]; intros d; simpl; auto.
destruct (IH (Z.max d a)) as [H|H]; auto.
destruct (Z.max_spec d a) as [[_ E]|[_ E]]; rewrite E in *; auto.
Qed.

Lemma midnight_date_of_le (d : Z) : midnight (date_of d) <= d.
Proof.
unfold midnight, date_of. rewrite Z.mul_comm. apply Z.mul_div_le. lia.
Qed.

Lemma date_of_mono (a b : Z) : a <= b -> date_of a <= date_of b.
Proof. unfold date_of; intros H. apply Z.div_le_mono; lia. Qed.

Lemma midnight_mono (a b : Z) : a <= b -> midnight a <= midnight b.
Proof. unfold midnight; lia. Qed.

(** X16.  The range that the date input starts with is from the day of the
    least date of the table to the day of its greatest date: some row has
    the least date and the first day is its day, some row has the greatest
    date and the last day is its day; the day of every date of the table
    lies in the range.  Left as it is, on a selection of rows of the table
    of which some row has a date, it keeps the rows with a date that is not
    after the midnight that begins the last day: every row whose date is a
    midnight is kept, a row without a date is dropped, and so is a row of
    the last day with a later time of day. *)
Theorem default_date_range_spec (df filtered : list row) :
  (forall r, In r filtered -> In r df) ->
  all_dates_null filtered = false ->
  exists min_date max_date,
    default_date_range df = Some [min_date; max_date] /\
    (exists r d, In r df /\ Meet_Date r = Some d /\ min_date = date_of d /\
       forall r' d', In r' df -> Meet_Date r' = Some d' -> d <= d') /\
    (exists r d, In r df /\ Meet_Date r = Some d /\ max_date = date_of d /\
       forall r' d', In r' df -> Meet_Date r' = Some d' -> d' <= d) /\
    (forall r d, In r df -> Meet_Date r = Some d ->
       min_date <= date_of d <= max_date) /\
    (forall r, In r (by_date (default_date_range df) filtered) <->
       In r filtered /\
       exists d, Meet_Date r = Some d /\ d <= midnight max_date) /\
    (forall r d, In r filtered -> Meet_Date r = Some d ->
       d = midnight (date_of d) ->
       In r (by_date (default_date_range df) filtered)) /\
    (forall r d, In r filtered -> Meet_Date r = Some d ->
       date_of d = max_date -> d <> midnight (date_of d) ->
       ~ In r (by_date (default_date_range df) filtered)).
Proof.
intros Hsub Hf.
assert (Hdf : all_dates_null df = false).
{ apply all_dates_null_false. apply all_dates_null_false in Hf.
  destruct Hf as (r & d & Hr & Hd). exists r, d; auto. }
unfold default_date_range. rewrite Hdf.
destruct (present_dates df) as [|d0 ds] eqn:Ep.
{ apply all_dates_null_false in Hdf. destruct Hdf as (r & d & Hr & Hd).
  assert (H : In d (present_dates df)) by (apply present_dates_in; exists r; auto).
  rewrite Ep in H; destruct H. }
cbv zeta.
set (mn := fold_left Z.min ds d0). set (mx := fold_left Z.max ds d0).
assert (Hb : forall r d, In r df -> Meet_Date r = Some d -> mn <= d <= mx).
{ intros r d Hr Hd.
  assert (H : In d (d0 :: ds)) by (rewrite <- Ep; apply present_dates_in; exists r; auto).
  split; [ now apply fold_min_le | now apply fold_max_ge ]. }
assert (Hmn : exists r, In r df /\ Meet_Date r = Some mn).
{ apply present_dates_in. rewrite Ep. apply fold_min_in. }
assert (Hmx : exists r, In r df /\ Meet_Date r = Some mx).
{ apply present_dates_in. rewrite Ep. apply fold_max_in. }
assert (Hiff : forall r, In r (by_date (Some [date_of mn; date_of mx]) filtered) <->
          In r filtered /\ exists d, Meet_Date r = Some d /\ d <= midnight (date_of mx)).
{ intros r. unfold by_date. rewrite Hf, filter_In, in_range_iff. split.
  - intros (Hr & d & Hd & _ & H); split; auto. exists d; auto.
  - intros (Hr & d & Hd & H); split; auto. exists d; split; auto. split; auto.
    destruct (Hb r d (Hsub r Hr) Hd) as [Hlo _].
    pose proof (midnight_date_of_le mn). lia. }
exists (date_of mn), (date_of mx).
split; [ reflexivity | ].
split.
{ destruct Hmn as (r & Hr & Hd). exists r, mn. repeat split; auto.
  intros r' d' Hr' Hd'. now destruct (Hb r' d' Hr' Hd'). }
split.
{ destruct Hmx as (r & Hr & Hd). exists r, mx. repeat split; auto.
  intros r' d' Hr' Hd'. now destruct (Hb r' d' Hr' Hd'). }
split.
{ intros r d Hr Hd. destruct (Hb r d Hr Hd). split; now apply date_of_mono. }
split; [ exact Hiff | ].
split.
- intros r d Hr Hd Hmid. apply Hiff. split; auto. exists d; split; auto.
  rewrite Hmid. apply midnight_mono, date_of_mono.
  now destruct (Hb r d (Hsub r Hr) Hd).
- intros r d Hr Hd Hlast Hlate Hin. apply Hiff in Hin.
  destruct Hin as (_ & d' & Hd' & Hle).
  assert (d' = d) by congruence. subst d'.
  rewrite <- Hlast in Hle. pose proof (midnight_date_of_le d). lia.
Qed.

End DefaultRange.

Lemma default_date_range_spec_witness :
  DateInput.default_date_range DateInput.one_day = Some [10; 10] /\
  In DateInput.morning_row
     (Query.by_date (DateInput.default_date_range DateInput.one_day) DateInput.one_day) /\
  ~ In DateInput.noon_row
     (Query.by_date (DateInput.default_date_range DateInput.one_day) DateInput.one_day).
Proof.
destruct (default_date_range_spec DateInput.one_day DateInput.one_day (fun r H => H) eq_refl)
  as (lo & hi & E & _ & _ & _ & _ & Hkeep & Hdrop).
split; [ reflexivity | ]. split.
- apply (Hkeep DateInput.morning_row (Query.midnight 10) (or_introl eq_refl) eq_refl eq_refl).
- apply (Hdrop DateInput.noon_row (Query.midnight 10 + 43200000000000)
           (or_intror (or_introl eq_refl)) eq_refl).
  + injection E as _ <-. reflexivity.
  + discriminate.
Defined.
